(** * A shallow embedding of the image resolver of tetratelabs/car

    The development follows the Go sources of the registry client:
    - [internal/reference/reference.go]   : [Parse]
    - [internal/registry/registry.go]     : [findPlatformManifest],
      [requireValidPlatform], [sortedKeyString], [ReadFilesystemLayer]
    - [internal/registry/json.go]         : [skipCreatedByPattern],
      [filterLayers], [newImage]
    - [internal/patternmatcher]           : [patternMatcher]
    - [internal/car/car.go]               : the [do] driver of List/Extract

    Go strings are byte strings; they are modelled as [string] (lists of
    8-bit [ascii]), and Go's [<] on strings as [String.compare], which is
    lexicographic on the byte values.  Errors are modelled by the text that
    their [Error()] method returns. *)

From Stdlib Require Import String Ascii List Bool ZArith Sorting.Sorted.
From stdpp Require Import base gmap strings list sorting.

Local Open Scope Z_scope.
Import ListNotations.

(** ** Go results: a value or an error *)

Inductive result (A : Type) : Type :=
| Ok (a : A)
| Err (msg : string).
Arguments Ok {A} a.
Arguments Err {A} msg.

(** ** Helpers mirroring the Go standard library *)

(** Go's [<=] on strings. *)
Definition strLe (a b : string) : Prop := String.leb a b = true.

#[global] Instance strLe_dec : RelDecision strLe :=
  fun a b => decide (String.leb a b = true).

#[global] Instance strLe_total : Total strLe.
Proof. intros a b. unfold strLe. apply String.leb_total. Qed.

(** [strings.Join] *)
Fixpoint strings_Join (elems : list string) (sep : string) : string :=
  match elems with
  | [] => EmptyString
  | [e] => e
  | e :: rest => e +:+ sep +:+ strings_Join rest sep
  end.

(** [strings.HasPrefix] *)
Fixpoint hasPrefix (s prefix : string) : bool :=
  match prefix, s with
  | EmptyString, _ => true
  | String c p, String d s' => Ascii.eqb c d && hasPrefix s' p
  | String _ _, EmptyString => false
  end.

(** [strings.Contains] *)
Fixpoint contains (s substr : string) : bool :=
  hasPrefix s substr ||
  match s with
  | EmptyString => false
  | String _ s' => contains s' substr
  end.

(** ** Platform validation (registry.go) *)

(** [sortedKeyString]: the keys of the map (in Go's iteration order, here
    the order of [map_to_list]), sorted with [sort.Slice] on [<], joined by
    [", "].  The keys of a map are distinct, so any sort yields the same
    list. *)
Definition sortedKeyString (m : gmap string string) : string :=
  strings_Join (merge_sort strLe (map fst (map_to_list m))) ", ".

Definition requireValidPlatform (platform : string) (platforms : gmap string string)
  : result string :=
  if Nat.eqb (size platforms) 0 then
    Err "image config contains no platform information"
  else if String.eqb platform EmptyString then
    (* for p := range platforms { return p, nil } when len == 1 *)
    match (if Nat.eqb (size platforms) 1 then map_to_list platforms else []) with
    | (p, _) :: _ => Ok p
    | [] => Err ("choose a platform: " +:+ sortedKeyString platforms)
    end
  else match platforms !! platform with
    | Some _ => Ok platform
    | None => Err (platform +:+ " is not a supported platform: " +:+ sortedKeyString platforms)
    end.

(** ** Reference parsing (internal/reference/reference.go) *)

(** [strings.IndexByte]: first index of [c], or -1. *)
Fixpoint indexByte_from (s : string) (c : ascii) (i : Z) : Z :=
  match s with
  | EmptyString => -1
  | String d s' => if Ascii.eqb d c then i else indexByte_from s' c (i + 1)
  end.
Definition indexByte (s : string) (c : ascii) : Z := indexByte_from s c 0.

(** [strings.LastIndexByte]: last index of [c], or -1. *)
Fixpoint lastIndexByte_from (s : string) (c : ascii) (i : Z) : Z :=
  match s with
  | EmptyString => -1
  | String d s' =>
      let later := lastIndexByte_from s' c (i + 1) in
      if Z.eqb later (-1) then (if Ascii.eqb d c then i else -1) else later
  end.
Definition lastIndexByte (s : string) (c : ascii) : Z := lastIndexByte_from s c 0.

Definition len (s : string) : Z := Z.of_nat (String.length s).

(** The Go slice expression [s[lo:hi]] (indices within bounds). *)
Definition slice (s : string) (lo hi : Z) : string :=
  String.substring (Z.to_nat lo) (Z.to_nat (hi - lo)) s.

Record Reference := mkReference {
  domain : string;
  path : string;
  tag : string
}.

Definition Parse (ref : string) : result Reference :=
  if String.eqb ref EmptyString then Err "invalid reference format" else
  let indexColon := lastIndexByte ref ":" in
  let indexSlash := indexByte ref "/" in
  if Z.eqb indexColon (-1) || Z.gtb indexSlash indexColon then
    Err "expected tagged reference"
  else
    let tag := slice ref (indexColon + 1) (len ref) in
    let remaining := slice ref 0 indexColon in
    if Z.eqb indexSlash (-1) then
      Ok (mkReference "docker.io" ("library/" +:+ remaining) tag)
    else if Z.eqb (lastIndexByte ref "/") indexSlash &&
            Z.eqb (indexByte remaining ".") (-1) then
      Ok (mkReference "docker.io" remaining tag)
    else
      Ok (mkReference (slice remaining 0 indexSlash)
                      (slice remaining (indexSlash + 1) (len remaining)) tag).

(** ** Layers, tar entries and the layer reader (registry.go) *)

Definition mediaTypeOCIImageLayer : string := "application/vnd.oci.image.layer.v1.tar+gzip".
Definition mediaTypeDockerImageLayer : string := "application/vnd.docker.image.rootfs.diff.tar.gzip".
Definition mediaTypeDockerImageForeignLayer : string :=
  "application/vnd.docker.image.rootfs.foreign.diff.tar.gzip".
Definition mediaTypeWasmImageConfig : string := "application/vnd.module.wasm.config.v1+json".
Definition mediaTypeWasmImageLayer : string := "application/vnd.module.wasm.content.layer.v1+wasm".

(** [api.FilesystemLayer] as built by [newFilesystemLayer]. *)
Record FilesystemLayer := mkFilesystemLayer {
  fl_url : string;
  fl_mediaType : string;
  fl_size : Z;
  fl_createdBy : string;
  fl_fileName : string
}.

(** [tar.Header], restricted to the fields the reader uses. *)
Record tarHeader := mkTarHeader {
  th_Typeflag : ascii;
  th_Name : string;
  th_Size : Z;
  th_Mode : Z;      (* int64 Unix mode bits *)
  th_ModTime : Z
}.

Definition TypeReg : ascii := "0".
Definition TypeSymlink : ascii := "2".
Definition TypeChar : ascii := "3".
Definition TypeBlock : ascii := "4".
Definition TypeDir : ascii := "5".
Definition TypeFifo : ascii := "6".

(** One result of [tr.Next()]: a header, or a decoding error.  [io.EOF] is
    the end of the list. *)
Inductive tarNext :=
| NextHeader (h : tarHeader)
| NextErr (msg : string).

(** [fs.FileMode] bits. *)
Definition ModePerm : Z := 511. (* 0o777 *)
Definition ModeDir : Z := Z.shiftl 1 31.
Definition ModeSymlink : Z := Z.shiftl 1 27.
Definition ModeDevice : Z := Z.shiftl 1 26.
Definition ModeNamedPipe : Z := Z.shiftl 1 25.
Definition ModeSocket : Z := Z.shiftl 1 24.
Definition ModeSetuid : Z := Z.shiftl 1 23.
Definition ModeSetgid : Z := Z.shiftl 1 22.
Definition ModeCharDevice : Z := Z.shiftl 1 21.
Definition ModeSticky : Z := Z.shiftl 1 20.

Definition perm (mode : Z) : Z := Z.land mode ModePerm.

(** [th.FileInfo().Mode()] of Go's [archive/tar] ([headerFileInfo.Mode]):
    the Unix mode bits of the header, as an [fs.FileMode]. *)
Definition headerFileInfoMode (h : tarHeader) : Z :=
  let hm := Z.land (th_Mode h) (Z.ones 32) in        (* fs.FileMode(h.Mode) *)
  let mode := perm hm in
  let mode := if Z.eqb (Z.land (th_Mode h) 2048) 0 then mode else Z.lor mode ModeSetuid in
  let mode := if Z.eqb (Z.land (th_Mode h) 1024) 0 then mode else Z.lor mode ModeSetgid in
  let mode := if Z.eqb (Z.land (th_Mode h) 512) 0 then mode else Z.lor mode ModeSticky in
  let m := Z.ldiff hm 4095 in                          (* &^ 07777 *)
  let mode :=
    if Z.eqb m 16384 then Z.lor mode ModeDir                          (* c_ISDIR *)
    else if Z.eqb m 4096 then Z.lor mode ModeNamedPipe                (* c_ISFIFO *)
    else if Z.eqb m 40960 then Z.lor mode ModeSymlink                 (* c_ISLNK *)
    else if Z.eqb m 24576 then Z.lor mode ModeDevice                  (* c_ISBLK *)
    else if Z.eqb m 8192 then Z.lor mode (Z.lor ModeDevice ModeCharDevice) (* c_ISCHR *)
    else if Z.eqb m 49152 then Z.lor mode ModeSocket                  (* c_ISSOCK *)
    else mode in
  let t := th_Typeflag h in
  if Ascii.eqb t TypeSymlink then Z.lor mode ModeSymlink
  else if Ascii.eqb t TypeChar then Z.lor mode (Z.lor ModeDevice ModeCharDevice)
  else if Ascii.eqb t TypeBlock then Z.lor mode ModeDevice
  else if Ascii.eqb t TypeDir then Z.lor mode ModeDir
  else if Ascii.eqb t TypeFifo then Z.lor mode ModeNamedPipe
  else mode.

(** What the [readFile] callback receives as its [io.Reader]. *)
Inductive reader (Body : Type) :=
| TarEntryReader (h : tarHeader)   (* the tar reader positioned on [h] *)
| BodyReader (b : Body).           (* the raw HTTP body *)
Arguments TarEntryReader {Body} h.
Arguments BodyReader {Body} b.

(** One invocation [readFile(name, size, mode, modTime, reader)]. *)
Record call (Body : Type) := mkCall {
  c_name : string;
  c_size : Z;
  c_mode : Z;
  c_modTime : Z;
  c_reader : reader Body
}.
Arguments mkCall {Body}.
Arguments c_name {Body}.
Arguments c_size {Body}.
Arguments c_mode {Body}.
Arguments c_modTime {Body}.
Arguments c_reader {Body}.

Section ReadFilesystemLayer.
(** The HTTP body, the HTTP client's [Get], [gzip.NewReader] followed by
    the successive [tr.Next()] results, the callback and [time.Now()]. *)
Variable Body : Type.
Variable httpGet : string -> string -> result Body.
Variable gzipTar : Body -> result (list tarNext).
Variable readFile : call Body -> option string.
Variable now : Z.

(** The [for { th, err := tr.Next() ... }] loop: the callback invocations
    made, and the error returned ([None] for nil). *)
Fixpoint tarLoop (steps : list tarNext) : list (call Body) * option string :=
  match steps with
  | [] => ([], None)
  | NextErr e :: _ => ([], Some e)
  | NextHeader th :: rest =>
      if negb (Ascii.eqb (th_Typeflag th) TypeReg) then tarLoop rest
      else if contains (th_Name th) ".wh." then tarLoop rest
      else
        let mode := headerFileInfoMode th in
        let mode := if Z.eqb (perm mode) 0 then Z.land 420 ModePerm else mode in
        let c := mkCall (th_Name th) (th_Size th) mode (th_ModTime th) (TarEntryReader th) in
        match readFile c with
        | Some err => ([c], Some ("error calling readFile on " +:+ th_Name th +:+ ": " +:+ err))
        | None => let '(cs, r) := tarLoop rest in (c :: cs, r)
        end
  end.

Definition ReadFilesystemLayer (layer : FilesystemLayer) : list (call Body) * option string :=
  let mediaType := fl_mediaType layer in
  let kind :=
    if String.eqb mediaType mediaTypeOCIImageLayer || String.eqb mediaType mediaTypeDockerImageLayer
    then Some true
    else if String.eqb mediaType mediaTypeWasmImageLayer || String.eqb mediaType mediaTypeWasmImageConfig
    then Some false
    else None in
  match kind with
  | None => ([], Some ("unexpected media type: " +:+ mediaType))
  | Some isTarGz =>
      match httpGet (fl_url layer) mediaType with
      | Err e => ([], Some e)
      | Ok body =>
          if isTarGz then
            match gzipTar body with
            | Err e => ([], Some e)
            | Ok steps => tarLoop steps
            end
          else if String.eqb (fl_fileName layer) EmptyString then ([], Some "missing filename")
          else
            let c := mkCall (fl_fileName layer) (fl_size layer) 420 now (BodyReader body) in
            ([c], readFile c)
      end
  end.
End ReadFilesystemLayer.

(** ** The [regexp] subset used by [skipCreatedByPattern] *)

(** Regular expressions in Go's RE2 syntax, restricted to the operators of
    [skipCreatedByPattern]: [.] (any character but a newline), literal
    characters, concatenation, alternation, [*] and [+]. *)
Inductive regex :=
| RNone                    (* matches nothing *)
| RAnyNotNL                (* . *)
| RChar (c : ascii)
| RCat (r1 r2 : regex)
| RAlt (r1 r2 : regex)
| RStar (r : regex)
| RPlus (r : regex).

Definition newline : ascii := Ascii.ascii_of_nat 10.

(** Positions reachable by zero or more iterations of [step] from [i];
    every useful iteration consumes input, so [fuel = length s] suffices. *)
Fixpoint starEnds (step : nat -> list nat) (fuel : nat) (i : nat) : list nat :=
  i :: match fuel with
       | O => []
       | S n => flat_map (fun j => if Nat.ltb i j then starEnds step n j else []) (step i)
       end.

(** [ends r s i]: the positions [j] such that [s[i:j]] is in the language
    of [r] (the position sets of Go's NFA simulation). *)
Fixpoint ends (r : regex) (s : list ascii) (i : nat) : list nat :=
  match r with
  | RNone => []
  | RAnyNotNL =>
      match nth_error s i with
      | Some c => if Ascii.eqb c newline then [] else [S i]
      | None => []
      end
  | RChar c =>
      match nth_error s i with
      | Some d => if Ascii.eqb c d then [S i] else []
      | None => []
      end
  | RCat r1 r2 => flat_map (ends r2 s) (ends r1 s i)
  | RAlt r1 r2 => ends r1 s i ++ ends r2 s i
  | RStar r1 => starEnds (ends r1 s) (length s) i
  | RPlus r1 => flat_map (starEnds (ends r1 s) (length s)) (ends r1 s i)
  end.

(** [Regexp.MatchString]: an unanchored search, true when some
    substring of [s] is in the language of [r]. *)
Definition MatchString (r : regex) (str : string) : bool :=
  let s := list_ascii_of_string str in
  existsb (fun i => negb (Nat.eqb (length (ends r s i)) 0)) (seq 0 (S (length s))).

(** A literal string as a regex. *)
Fixpoint literal (s : string) : regex :=
  match s with
  | EmptyString => RStar RNone
  | String c EmptyString => RChar c
  | String c s' => RCat (RChar c) (literal s')
  end.

(** [(?:a|b|...)] *)
Fixpoint alternation (alts : list string) : regex :=
  match alts with
  | [] => RNone
  | [a] => literal a
  | a :: rest => RAlt (literal a) (alternation rest)
  end.

Definition ignoredDockerDirectives : list string :=
  ["ARG"; "CMD"; "ENTRYPOINT"; "ENV"; "EXPOSE"; "HEALTHCHECK"; "LABEL";
   "MAINTAINER"; "ONBUILD"; "SHELL"; "STOPSIGNAL"; "USER"; "VOLUME"; "WORKDIR"].

(** [regexp.MustCompile(".* +(?:" + strings.Join(ignoredDockerDirectives, "|") + ") .*")] *)
Definition skipCreatedByPattern : regex :=
  RCat (RStar RAnyNotNL)
    (RCat (RPlus (RChar " "))
      (RCat (alternation ignoredDockerDirectives)
        (RCat (RChar " ") (RStar RAnyNotNL)))).

(** ** Go's [path.Clean] and [path.Join] *)

Fixpoint splitSlash_aux (s : string) (cur : string) : list string :=
  match s with
  | EmptyString => [cur]
  | String c s' =>
      if Ascii.eqb c "/" then cur :: splitSlash_aux s' EmptyString
      else splitSlash_aux s' (cur +:+ String c EmptyString)
  end.

(** The slash-separated elements of a path. *)
Definition splitSlash (s : string) : list string := splitSlash_aux s EmptyString.

(** The element-processing of [path.Clean]: drop empty and [.] elements,
    let [..] remove the previous element (kept at the front of a relative
    path, dropped at the root of a rooted one).  [acc] is reversed. *)
Fixpoint cleanElems (elems : list string) (rooted : bool) (acc : list string) : list string :=
  match elems with
  | [] => rev acc
  | e :: rest =>
      if String.eqb e EmptyString || String.eqb e "." then cleanElems rest rooted acc
      else if String.eqb e ".." then
        match acc with
        | top :: acc' =>
            if String.eqb top ".." then cleanElems rest rooted (".." :: acc)
            else cleanElems rest rooted acc'
        | [] => if rooted then cleanElems rest rooted [] else cleanElems rest rooted [".."]
        end
      else cleanElems rest rooted (e :: acc)
  end.

Definition Clean (p : string) : string :=
  if String.eqb p EmptyString then "." else
  let rooted := hasPrefix p "/" in
  let body := strings_Join (cleanElems (splitSlash p) rooted []) "/" in
  if rooted then "/" +:+ body
  else if String.eqb body EmptyString then "." else body.

(** [path.Join(a, b)]: empty leading elements are ignored, the rest are
    joined by slashes and cleaned; all empty gives the empty string. *)
Definition pathJoin (a b : string) : string :=
  if negb (String.eqb a EmptyString) then Clean (a +:+ "/" +:+ b)
  else if negb (String.eqb b EmptyString) then Clean b
  else EmptyString.

(** ** The registry JSON model (json.go) *)

Record historyV1 := mkHistory {
  CreatedBy : string;
  EmptyLayer : bool
}.

Record descriptorV1 := mkDescriptor {
  d_MediaType : string;
  d_Digest : string;
  d_Size : Z;
  d_Annotations : gmap string string
}.

Record imageManifestV1 := mkManifest {
  m_URL : string;
  m_Config : descriptorV1;
  m_Layers : list descriptorV1
}.

Record imageConfigV1 := mkConfig {
  Architecture : string;
  OS : string;
  OSVersion : string;
  History : list historyV1
}.

Record Image := mkImage {
  img_URL : string;
  img_Platform : string;
  img_FilesystemLayers : list FilesystemLayer
}.

Definition opencontainersImageTitle : string := "org.opencontainers.image.title".

(** A Go map read: the zero value when absent. *)
Definition mapGet (m : gmap string string) (k : string) : string :=
  match m !! k with Some v => v | None => EmptyString end.

Definition newFilesystemLayer (l : descriptorV1) (baseURL createdBy : string) : FilesystemLayer :=
  mkFilesystemLayer (baseURL +:+ "/blobs/" +:+ d_Digest l) (d_MediaType l) (d_Size l)
    createdBy (mapGet (d_Annotations l) opencontainersImageTitle).

(** The history cursor [k] is the suffix [history[k:]].  This is
    [for history[k].EmptyLayer { k++ }; h := history[k]; k++]: [None] when
    [history[k]] is out of range, where Go panics. *)
Fixpoint nextHistory (hist : list historyV1) : option (historyV1 * list historyV1) :=
  match hist with
  | [] => None
  | h :: rest => if EmptyLayer h then nextHistory rest else Some (h, rest)
  end.

(** The [for j, k := 0, 0; j < len(manifest.Layers); j++] loop; [None]
    is a run-time panic (index out of range). *)
Fixpoint filterLayers_loop (baseURL : string) (layers : list descriptorV1)
    (hist : list historyV1) : option (list FilesystemLayer) :=
  match layers with
  | [] => Some []
  | l :: ls =>
      match nextHistory hist with
      | None => None
      | Some (h, hist') =>
          match filterLayers_loop baseURL ls hist' with
          | None => None
          | Some rest =>
              if String.eqb (d_MediaType l) mediaTypeDockerImageForeignLayer then Some rest
              else if MatchString skipCreatedByPattern (CreatedBy h) then Some rest
              else Some (newFilesystemLayer l baseURL (CreatedBy h) :: rest)
          end
      end
  end.

(** [make([]historyV1, n)]: zero values. *)
Definition zeroHistory : historyV1 := mkHistory EmptyString false.

Definition filterLayers (baseURL : string) (manifest : imageManifestV1) (config : imageConfigV1)
  : option (list FilesystemLayer) :=
  let history :=
    if Nat.eqb (length (History config)) 0
    then repeat zeroHistory (length (m_Layers manifest))
    else History config in
  filterLayers_loop baseURL (m_Layers manifest) history.

Definition newImage (baseURL : string) (manifest : imageManifestV1) (config : imageConfigV1)
  : option Image :=
  match filterLayers baseURL manifest config with
  | None => None
  | Some layers => Some (mkImage (m_URL manifest) (pathJoin (OS config) (Architecture config)) layers)
  end.

(** ** Platform selection from an index (registry.go) *)

Record platformV1 := mkPlatform {
  p_Architecture : string;
  p_OS : string;
  p_OSVersion : string
}.

Record imageManifestReferenceV1 := mkManifestRef {
  r_MediaType : string;
  r_Digest : string;
  r_Platform : platformV1
}.

(** The three maps of [findPlatformManifest]. *)
Record platformMaps := mkPlatformMaps {
  platformToURL : gmap string string;
  platformToOSVersion : gmap string string;
  urlToMediaType : gmap string string
}.

Definition emptyPlatformMaps : platformMaps := mkPlatformMaps ∅ ∅ ∅.

(** One iteration of [for _, ref := range index.Manifests]. *)
Definition recordManifest (baseURL path : string) (st : platformMaps)
    (ref : imageManifestReferenceV1) : platformMaps :=
  let p := pathJoin (p_OS (r_Platform ref)) (p_Architecture (r_Platform ref)) in
  if String.eqb p EmptyString then st   (* skip unknown platform *)
  else
    let url := baseURL +:+ "/" +:+ path +:+ "/manifests/" +:+ r_Digest ref in
    let lastOSVersion := mapGet (platformToOSVersion st) p in
    (* ref.Platform.OSVersion >= lastOSVersion *)
    if String.leb lastOSVersion (p_OSVersion (r_Platform ref)) then
      mkPlatformMaps (<[p := url]> (platformToURL st))
                     (<[p := p_OSVersion (r_Platform ref)]> (platformToOSVersion st))
                     (<[url := r_MediaType ref]> (urlToMediaType st))
    else st.

Definition indexPlatformMaps (baseURL path : string) (manifests : list imageManifestReferenceV1)
  : platformMaps :=
  fold_left (recordManifest baseURL path) manifests emptyPlatformMaps.

(** [findPlatformManifest] up to the GET of the chosen manifest: the URL
    and media type it fetches. *)
Definition findPlatformManifest (baseURL path : string) (manifests : list imageManifestReferenceV1)
    (platform : string) : result (string * string) :=
  let st := indexPlatformMaps baseURL path manifests in
  match requireValidPlatform platform (platformToURL st) with
  | Err e => Err e
  | Ok platform =>
      let url := mapGet (platformToURL st) platform in
      Ok (url, mapGet (urlToMediaType st) url)
  end.

(** ** The pattern matcher (internal/patternmatcher) *)

Record patternMatcher := mkPatternMatcher {
  patterns : gmap string bool;
  fastRead : bool
}.

Definition stripLeadingSlash (name : string) : string :=
  match name with
  | String c rest => if Ascii.eqb c "/" then rest else name
  | EmptyString => name
  end.

Section PatternMatcher.
(** [filepath.Match] (a bad pattern counts as no match), and the order in
    which Go's [range] visits a [map[string]bool]. *)
Variable filepathMatch : string -> string -> bool.
Variable iterate : gmap string bool -> list (string * bool).

Definition New (pats : list string) (fr : bool) : patternMatcher :=
  mkPatternMatcher (fold_left (fun m p => <[p := false]> m) pats ∅) fr.

(** Returns the answer and the updated matcher. *)
Definition MatchesPattern (pm : patternMatcher) (name : string) : bool * patternMatcher :=
  if Nat.eqb (size (patterns pm)) 0 then (true, pm)
  else match find (fun pb => filepathMatch (fst pb) name) (iterate (patterns pm)) with
       | Some (p, _) => (true, mkPatternMatcher (<[p := true]> (patterns pm)) (fastRead pm))
       | None => (false, pm)
       end.

Definition Unmatched (pm : patternMatcher) : list string :=
  map fst (List.filter (fun pb => negb (snd pb)) (iterate (patterns pm))).

Definition StillMatching (pm : patternMatcher) : bool :=
  negb (fastRead pm) || Nat.eqb (size (patterns pm)) 0 || Nat.ltb 0 (length (Unmatched pm)).

(** ** The [do] driver of List and Extract (internal/car/car.go) *)

Variable Body : Type.
(** The registry: [GetImage]'s result, and for each layer the entries
    [ReadFilesystemLayer] hands to its callback, in order, with the error
    that ends the stream ([None] at a clean end) and how it wraps an
    error of the callback. *)
Variable getImageLayers : result (list FilesystemLayer).
Variable layerEntries : FilesystemLayer -> list (call Body) * option string.
Variable wrapCallbackError : call Body -> string -> string.
(** The List or Extract action, the created-by filter and the CLI args. *)
Variable action : call Body -> option string.
Variable createdByPattern : option (string -> bool).
Variable filePatterns : list string.
Variable fastReadFlag : bool.

(** The callback [rf] the driver passes to [ReadFilesystemLayer]. *)
Definition rf (pm : patternMatcher) (c : call Body) : patternMatcher * option string :=
  let name := stripLeadingSlash (c_name c) in
  let '(ok, pm') := MatchesPattern pm name in
  if negb ok then (pm', None)
  else (pm', action (mkCall name (c_size c) (c_mode c) (c_modTime c) (c_reader c))).

Fixpoint readEntries (pm : patternMatcher) (cs : list (call Body)) (tail : option string)
  : patternMatcher * option string :=
  match cs with
  | [] => (pm, tail)
  | c :: rest =>
      let '(pm', err) := rf pm c in
      match err with
      | Some e => (pm', Some (wrapCallbackError c e))
      | None => readEntries pm' rest tail
      end
  end.

Definition readLayer (pm : patternMatcher) (l : FilesystemLayer) : patternMatcher * option string :=
  let '(cs, tail) := layerEntries l in readEntries pm cs tail.

(** The [for _, layer := range filteredLayers] loop: the layers read,
    each with the matcher after it, and the error returned. *)
Fixpoint layersLoop (pm : patternMatcher) (layers : list FilesystemLayer)
  : patternMatcher * list (FilesystemLayer * patternMatcher) * option string :=
  match layers with
  | [] => (pm, [], None)
  | l :: rest =>
      let '(pm', err) := readLayer pm l in
      match err with
      | Some e => (pm', [(l, pm')], Some e)
      | None =>
          if negb (StillMatching pm') then (pm', [(l, pm')], None)
          else let '(pm'', read, r) := layersLoop pm' rest in (pm'', (l, pm') :: read, r)
      end
  end.

Definition createdByFilter (l : FilesystemLayer) : bool :=
  match createdByPattern with
  | None => true
  | Some matchString => matchString (fl_createdBy l)
  end.

(** [do]: the layers read and the error returned. *)
Definition run : list (FilesystemLayer * patternMatcher) * option string :=
  match getImageLayers with
  | Err e => ([], Some e)
  | Ok layers =>
      let filtered := List.filter createdByFilter layers in
      let pm := New filePatterns fastReadFlag in
      let '(pm', read, r) := layersLoop pm filtered in
      match r with
      | Some e => (read, Some e)
      | None =>
          let unmatched := Unmatched pm' in
          if Nat.ltb 0 (length unmatched)
          then (read, Some (strings_Join unmatched ", " +:+ " not found in layer"))
          else (read, None)
      end
  end.
End PatternMatcher.

(** * Properties *)

(** ** Platform validation *)

Lemma sortedKeyString_sorted (m : gmap string string) :
  exists keys, sortedKeyString m = strings_Join keys ", " /\
    Sorted strLe keys /\ keys ≡ₚ map fst (map_to_list m).
Proof.
  exists (merge_sort strLe (map fst (map_to_list m))). split; [reflexivity|]. split.
  - apply Sorted_merge_sort. exact strLe_total.
  - apply merge_sort_Permutation.
Qed.

(** C2: [requireValidPlatform] is exactly the five-way case analysis of
    the spec, with the key list sorted lexicographically (Go's [<] on
    strings, i.e. on bytes) and joined by commas. *)
Theorem requireValidPlatform_cases (platform : string) (platforms : gmap string string) :
  (platforms = ∅ ->
     requireValidPlatform platform platforms = Err "image config contains no platform information") /\
  (forall k v, platform = EmptyString -> platforms = {[k := v]} ->
     requireValidPlatform platform platforms = Ok k) /\
  (platform = EmptyString -> (1 < size platforms)%nat ->
     requireValidPlatform platform platforms = Err ("choose a platform: " +:+ sortedKeyString platforms)) /\
  (platform <> EmptyString -> is_Some (platforms !! platform) ->
     requireValidPlatform platform platforms = Ok platform) /\
  (platform <> EmptyString -> platforms <> ∅ -> platforms !! platform = None ->
     requireValidPlatform platform platforms =
       Err (platform +:+ " is not a supported platform: " +:+ sortedKeyString platforms)) /\
  (exists keys, sortedKeyString platforms = strings_Join keys ", " /\
     Sorted strLe keys /\ keys ≡ₚ map fst (map_to_list platforms)).
Proof.
  unfold requireValidPlatform.
  split; [| split; [| split; [| split; [| split]]]].
  - intros ->. reflexivity.
  - intros k v -> ->. rewrite map_size_singleton. simpl.
    rewrite map_to_list_singleton. reflexivity.
  - intros -> Hs. destruct (Nat.eqb_spec (size platforms) 0); [lia|].
    destruct (Nat.eqb_spec (size platforms) 1); [lia|]. reflexivity.
  - intros Hne [v Hv]. destruct (Nat.eqb_spec (size platforms) 0) as [H0|].
    + apply map_size_empty_inv in H0. subst. rewrite lookup_empty in Hv. discriminate.
    + apply String.eqb_neq in Hne. rewrite Hne, Hv. reflexivity.
  - intros Hne Hm Hn. destruct (Nat.eqb_spec (size platforms) 0) as [H0|].
    + apply map_size_empty_inv in H0. contradiction.
    + apply String.eqb_neq in Hne. rewrite Hne, Hn. reflexivity.
  - apply sortedKeyString_sorted.
Qed.

Lemma requireValidPlatform_cases_witness :
  requireValidPlatform EmptyString (<["linux/arm64" := EmptyString]> {["linux/amd64" := EmptyString]})
    = Err "choose a platform: linux/amd64, linux/arm64".
Proof.
  destruct (requireValidPlatform_cases EmptyString
              (<["linux/arm64" := EmptyString]> {["linux/amd64" := EmptyString]}))
    as (_ & _ & H & _).
  rewrite H; [reflexivity | reflexivity | vm_compute; lia].
Defined.

(** ** Reference parsing *)

(** C7: on the spec's examples [Parse] returns the domain [docker.io]
    (not [index.docker.io]) for the two Docker Hub references; the other
    four results are those of the spec. *)
Theorem Parse_examples :
  Parse "alpine:3.14.0" = Ok (mkReference "docker.io" "library/alpine" "3.14.0") /\
  Parse "envoyproxy/envoy:v1.18.3" = Ok (mkReference "docker.io" "envoyproxy/envoy" "v1.18.3") /\
  Parse "ghcr.io/homebrew/core/envoy:1.18.3-1" =
    Ok (mkReference "ghcr.io" "homebrew/core/envoy" "1.18.3-1") /\
  Parse "localhost:5000/tetratelabs/car:latest" =
    Ok (mkReference "localhost:5000" "tetratelabs/car" "latest") /\
  Parse "foo/bar" = Err "expected tagged reference" /\
  Parse EmptyString = Err "invalid reference format".
Proof. repeat split; vm_compute; reflexivity. Qed.

(** ** The layer reader *)

Section ReaderProperties.
Variable Body : Type.
Variable httpGet : string -> string -> result Body.
Variable gzipTar : Body -> result (list tarNext).
Variable readFile : call Body -> option string.
Variable now : Z.

(** The spec's reading of one tar entry: regular files whose name has no
    [.wh.] are passed on, with the header's mode, or [0o644] when its
    permission bits are all zero. *)
Definition selectedEntry (h : tarHeader) : bool :=
  Ascii.eqb (th_Typeflag h) TypeReg && negb (contains (th_Name h) ".wh.").

Definition effectiveMode (h : tarHeader) : Z :=
  if Z.eqb (perm (headerFileInfoMode h)) 0 then 420 else headerFileInfoMode h.

Definition entryCall (h : tarHeader) : call Body :=
  mkCall (th_Name h) (th_Size h) (effectiveMode h) (th_ModTime h) (TarEntryReader h).

(** Call [readFile] on each call in turn, aborting at the first error
    with [error calling readFile on <name>]. *)
Fixpoint callUntilError (cs : list (call Body)) : list (call Body) * option string :=
  match cs with
  | [] => ([], None)
  | c :: rest =>
      match readFile c with
      | Some err => ([c], Some ("error calling readFile on " +:+ c_name c +:+ ": " +:+ err))
      | None => let '(done_, r) := callUntilError rest in (c :: done_, r)
      end
  end.

Lemma tarLoop_headers (hs : list tarHeader) :
  tarLoop Body readFile (map NextHeader hs) = callUntilError (map entryCall (List.filter selectedEntry hs)).
Proof.
  induction hs as [| h hs IH]; [reflexivity|].
  cbn [map List.filter tarLoop]. unfold selectedEntry.
  destruct (Ascii.eqb (th_Typeflag h) TypeReg); cbn [negb andb]; [| exact IH].
  destruct (contains (th_Name h) ".wh."); cbn [negb andb]; [exact IH|].
  cbn [map callUntilError]. unfold entryCall, effectiveMode.
  replace (Z.land 420 ModePerm) with 420 by reflexivity.
  destruct (readFile _); [reflexivity|]. rewrite IH. reflexivity.
Qed.
End ReaderProperties.

(** C3: for a gzipped-tar layer whose body is fetched and decoded, the
    entries that reach the callback are exactly the regular files whose
    name has no [.wh.], in tar order, with the header's mode (its
    [fs.FileMode] form) or [0o644] when the permission bits are zero; the
    read stops at the first callback error, wrapped as
    [error calling readFile on <name>]. *)
Theorem ReadFilesystemLayer_tar (Body : Type) (httpGet : string -> string -> result Body)
    (gzipTar : Body -> result (list tarNext)) (readFile : call Body -> option string) (now : Z)
    (layer : FilesystemLayer) (body : Body) (hs : list tarHeader) :
  (fl_mediaType layer = mediaTypeOCIImageLayer \/ fl_mediaType layer = mediaTypeDockerImageLayer) ->
  httpGet (fl_url layer) (fl_mediaType layer) = Ok body ->
  gzipTar body = Ok (map NextHeader hs) ->
  ReadFilesystemLayer Body httpGet gzipTar readFile now layer =
    callUntilError Body readFile (map (entryCall Body) (List.filter selectedEntry hs)).
Proof.
  intros Hmt Hget Hgz. unfold ReadFilesystemLayer.
  replace (String.eqb (fl_mediaType layer) mediaTypeOCIImageLayer ||
           String.eqb (fl_mediaType layer) mediaTypeDockerImageLayer) with true
    by (destruct Hmt as [-> | ->]; reflexivity).
  rewrite Hget, Hgz. apply tarLoop_headers.
Qed.

Definition sampleTarLayer : FilesystemLayer :=
  mkFilesystemLayer "https://test/v2/user/repo/blobs/sha256:1" mediaTypeDockerImageLayer 100
    "ADD x /" EmptyString.

Definition sampleHeaders : list tarHeader :=
  [mkTarHeader TypeDir "usr/" 0 493 0;
   mkTarHeader TypeReg "usr/.wh.old" 0 420 0;
   mkTarHeader TypeReg "usr/bin/car" 6 0 7;
   mkTarHeader TypeReg "usr/bin/boat" 3 493 8].

Lemma ReadFilesystemLayer_tar_witness :
  ReadFilesystemLayer unit (fun _ _ => Ok tt) (fun _ => Ok (map NextHeader sampleHeaders))
    (fun c => if String.eqb (c_name c) "usr/bin/boat" then Some "disk full" else None) 0
    sampleTarLayer =
  ([mkCall "usr/bin/car" 6 420 7 (TarEntryReader (mkTarHeader TypeReg "usr/bin/car" 6 0 7));
    mkCall "usr/bin/boat" 3 493 8 (TarEntryReader (mkTarHeader TypeReg "usr/bin/boat" 3 493 8))],
   Some "error calling readFile on usr/bin/boat: disk full").
Proof.
  rewrite (ReadFilesystemLayer_tar unit (fun _ _ => Ok tt) (fun _ => Ok (map NextHeader sampleHeaders))
             _ 0 sampleTarLayer tt sampleHeaders); [vm_compute; reflexivity | right; reflexivity
             | reflexivity | reflexivity].
Defined.

Definition wasmLayer (fileName : string) : FilesystemLayer :=
  mkFilesystemLayer "https://test/v2/user/repo/blobs/sha256:2" mediaTypeWasmImageLayer 42
    "COPY plugin.wasm ./ # buildkit" fileName.

(** C9 fails as stated: the body is fetched before the file name is
    checked, so a Wasm layer with an empty [file_name] whose GET fails
    returns the GET error, not [missing filename]. *)
Lemma ReadFilesystemLayer_wasm_fetch_first :
  fl_fileName (wasmLayer EmptyString) = EmptyString /\
  ReadFilesystemLayer unit (fun _ _ => Err "connection refused") (fun _ => Err "not gzip")
    (fun _ => None) 0 (wasmLayer EmptyString) = ([], Some "connection refused") /\
  Some "connection refused" <> Some "missing filename".
Proof. split; [reflexivity | split; [vm_compute; reflexivity | discriminate]]. Qed.

(** C9 (amended): a layer whose media type is neither a rootfs tar nor a
    Wasm type fails with [unexpected media type: <type>] before any fetch
    and without a callback.  For a Wasm layer the body is fetched first: a
    GET error is returned as is, without a callback; once the body is
    fetched, a layer with an empty [file_name] fails with
    [missing filename] without a callback, and otherwise the callback is
    invoked exactly once with [(file_name, size, 0o644, now, body)] and its
    result is returned. *)
Theorem ReadFilesystemLayer_wasm (Body : Type) (httpGet : string -> string -> result Body)
    (gzipTar : Body -> result (list tarNext)) (readFile : call Body -> option string) (now : Z)
    (layer : FilesystemLayer) :
  (fl_mediaType layer <> mediaTypeOCIImageLayer -> fl_mediaType layer <> mediaTypeDockerImageLayer ->
   fl_mediaType layer <> mediaTypeWasmImageLayer -> fl_mediaType layer <> mediaTypeWasmImageConfig ->
   ReadFilesystemLayer Body httpGet gzipTar readFile now layer =
     ([], Some ("unexpected media type: " +:+ fl_mediaType layer))) /\
  ((fl_mediaType layer = mediaTypeWasmImageLayer \/ fl_mediaType layer = mediaTypeWasmImageConfig) ->
   (forall e, httpGet (fl_url layer) (fl_mediaType layer) = Err e ->
      ReadFilesystemLayer Body httpGet gzipTar readFile now layer = ([], Some e)) /\
   (forall body, httpGet (fl_url layer) (fl_mediaType layer) = Ok body ->
      (fl_fileName layer = EmptyString ->
       ReadFilesystemLayer Body httpGet gzipTar readFile now layer = ([], Some "missing filename")) /\
      (fl_fileName layer <> EmptyString ->
       let c := mkCall (fl_fileName layer) (fl_size layer) 420 now (BodyReader body) in
       ReadFilesystemLayer Body httpGet gzipTar readFile now layer = ([c], readFile c)))).
Proof.
  unfold ReadFilesystemLayer. split.
  - intros H1 H2 H3 H4.
    apply String.eqb_neq in H1, H2, H3, H4. rewrite H1, H2, H3, H4. reflexivity.
  - intros Hw.
    assert (Hk : (String.eqb (fl_mediaType layer) mediaTypeOCIImageLayer ||
                  String.eqb (fl_mediaType layer) mediaTypeDockerImageLayer) = false /\
                 (String.eqb (fl_mediaType layer) mediaTypeWasmImageLayer ||
                  String.eqb (fl_mediaType layer) mediaTypeWasmImageConfig) = true)
      by (destruct Hw as [-> | ->]; split; reflexivity).
    destruct Hk as [-> ->]. split.
    + intros e ->. reflexivity.
    + intros body ->. split.
      * intros ->. reflexivity.
      * intros Hf. apply String.eqb_neq in Hf. rewrite Hf. reflexivity.
Qed.

Lemma ReadFilesystemLayer_wasm_witness :
  ReadFilesystemLayer unit (fun _ _ => Ok tt) (fun _ => Err "not gzip") (fun _ => None) 1700000000
    (wasmLayer "plugin.wasm") =
  ([mkCall "plugin.wasm" 42 420 1700000000 (BodyReader tt)], None).
Proof.
  destruct (ReadFilesystemLayer_wasm unit (fun _ _ => Ok tt) (fun _ => Err "not gzip")
              (fun _ => None) 1700000000 (wasmLayer "plugin.wasm")) as [_ H].
  destruct H as [_ H]; [left; reflexivity|].
  destruct (H tt eq_refl) as [_ H2].
  apply H2. discriminate.
Defined.

(** ** Layer assembly *)

(** The history entries that produced a layer. *)
Definition nonEmptyHistory (hist : list historyV1) : list historyV1 :=
  List.filter (fun h => negb (EmptyLayer h)) hist.

Definition isForeignLayer (l : descriptorV1) : bool :=
  String.eqb (d_MediaType l) mediaTypeDockerImageForeignLayer.

(** The spec's exclusion rules for a layer bound to a history entry. *)
Definition keptPair (p : descriptorV1 * historyV1) : bool :=
  negb (isForeignLayer (fst p)) && negb (MatchString skipCreatedByPattern (CreatedBy (snd p))).

Definition bindLayer (baseURL : string) (p : descriptorV1 * historyV1) : FilesystemLayer :=
  newFilesystemLayer (fst p) baseURL (CreatedBy (snd p)).

Lemma nextHistory_nonEmpty (hist : list historyV1) :
  match nonEmptyHistory hist with
  | [] => nextHistory hist = None
  | h :: t => exists rest, nextHistory hist = Some (h, rest) /\ nonEmptyHistory rest = t
  end.
Proof.
  induction hist as [| h hist IH]; [reflexivity|].
  unfold nonEmptyHistory in *. cbn [List.filter nextHistory].
  destruct (EmptyLayer h); cbn [negb].
  - exact IH.
  - exists hist. split; reflexivity.
Qed.

Lemma filterLayers_loop_enough (baseURL : string) (layers : list descriptorV1) :
  forall hist : list historyV1,
  (length layers <= length (nonEmptyHistory hist))%nat ->
  filterLayers_loop baseURL layers hist =
    Some (map (bindLayer baseURL) (List.filter keptPair (combine layers (nonEmptyHistory hist)))).
Proof.
  induction layers as [| l ls IH]; intros hist Hlen; [reflexivity|].
  pose proof (nextHistory_nonEmpty hist) as Hn.
  destruct (nonEmptyHistory hist) as [| h t] eqn:Hne; [simpl in Hlen; lia|].
  destruct Hn as (rest & Hnext & Hrest).
  cbn [filterLayers_loop combine List.filter]. rewrite Hnext.
  rewrite IH by (rewrite Hrest; simpl in Hlen; lia). rewrite Hrest.
  set (rest_kept := List.filter keptPair (combine ls t)).
  change (keptPair (l, h)) with
    (negb (isForeignLayer l) && negb (MatchString skipCreatedByPattern (CreatedBy h))).
  unfold isForeignLayer.
  destruct (String.eqb (d_MediaType l) mediaTypeDockerImageForeignLayer); [reflexivity|].
  destruct (MatchString skipCreatedByPattern (CreatedBy h)); reflexivity.
Qed.

Lemma filterLayers_loop_short (baseURL : string) (layers : list descriptorV1) :
  forall hist : list historyV1,
  (length (nonEmptyHistory hist) < length layers)%nat ->
  filterLayers_loop baseURL layers hist = None.
Proof.
  induction layers as [| l ls IH]; intros hist Hlen; [simpl in Hlen; lia|].
  pose proof (nextHistory_nonEmpty hist) as Hn.
  cbn [filterLayers_loop].
  destruct (nonEmptyHistory hist) as [| h t] eqn:Hne.
  - rewrite Hn. reflexivity.
  - destruct Hn as (rest & Hnext & Hrest). rewrite Hnext.
    rewrite IH by (rewrite Hrest; simpl in Hlen; lia). reflexivity.
Qed.

Lemma nonEmptyHistory_zero (n : nat) : nonEmptyHistory (repeat zeroHistory n) = repeat zeroHistory n.
Proof. induction n as [| n IH]; [reflexivity|]. simpl. rewrite IH. reflexivity. Qed.

(** C1: the manifest's layers are bound, in order, to the history entries
    that are not [empty_layer] (to one synthesized empty entry per layer
    when the history is empty); with enough non-empty entries the kept
    layers are the bound pairs that pass the exclusions, in order, so the
    i-th kept layer's [created_by] is that of the i-th kept pair. *)
Theorem filterLayers_binds_history (baseURL : string) (manifest : imageManifestV1)
    (config : imageConfigV1) :
  (History config = [] ->
   filterLayers baseURL manifest config =
     Some (map (bindLayer baseURL)
            (List.filter keptPair (combine (m_Layers manifest)
                                     (repeat zeroHistory (length (m_Layers manifest))))))) /\
  (History config <> [] ->
   (length (m_Layers manifest) <= length (nonEmptyHistory (History config)))%nat ->
   filterLayers baseURL manifest config =
     Some (map (bindLayer baseURL)
            (List.filter keptPair (combine (m_Layers manifest) (nonEmptyHistory (History config))))) /\
   option_map (map fl_createdBy) (filterLayers baseURL manifest config) =
     Some (map (fun p => CreatedBy (snd p))
            (List.filter keptPair (combine (m_Layers manifest) (nonEmptyHistory (History config)))))).
Proof.
  unfold filterLayers. split.
  - intros ->. cbn [length Nat.eqb].
    rewrite filterLayers_loop_enough by (rewrite nonEmptyHistory_zero, repeat_length; lia).
    rewrite nonEmptyHistory_zero. reflexivity.
  - intros Hh Hlen.
    destruct (History config) as [| h0 hs]; [contradiction|]. cbn [length Nat.eqb].
    rewrite filterLayers_loop_enough by exact Hlen. split; [reflexivity|].
    cbn [option_map]. rewrite map_map. reflexivity.
Qed.

Definition layerDigest (d : string) : descriptorV1 :=
  mkDescriptor mediaTypeDockerImageLayer d 10 ∅.

Lemma filterLayers_binds_history_witness :
  option_map (map fl_createdBy)
    (filterLayers "https://test/v2/user/repo"
       (mkManifest "u" (layerDigest "cfg") [layerDigest "sha256:a"; layerDigest "sha256:b"])
       (mkConfig "amd64" "linux" EmptyString
          [mkHistory "ADD file in /" false; mkHistory "/bin/sh -c #(nop)  CMD [sh]" true;
           mkHistory "COPY ci/docker-entrypoint.sh / # buildkit" false])) =
  Some ["ADD file in /"; "COPY ci/docker-entrypoint.sh / # buildkit"].
Proof.
  destruct (filterLayers_binds_history "https://test/v2/user/repo"
       (mkManifest "u" (layerDigest "cfg") [layerDigest "sha256:a"; layerDigest "sha256:b"])
       (mkConfig "amd64" "linux" EmptyString
          [mkHistory "ADD file in /" false; mkHistory "/bin/sh -c #(nop)  CMD [sh]" true;
           mkHistory "COPY ci/docker-entrypoint.sh / # buildkit" false])) as [_ H].
  destruct H as [_ ->]; [discriminate | vm_compute; lia | vm_compute; reflexivity].
Defined.

Definition oneLayerManifest (mediaType : string) : imageManifestV1 :=
  mkManifest "https://test/v2/user/repo/manifests/v1" (layerDigest "sha256:cfg")
    [mkDescriptor mediaType "sha256:l1" 10 ∅].

Definition oneEntryConfig (createdBy : string) : imageConfigV1 :=
  mkConfig "amd64" "windows" EmptyString [mkHistory createdBy false].

Lemma keptPair_filter (ps : list (descriptorV1 * historyV1)) :
  List.filter keptPair ps =
  List.filter (fun p => negb (isForeignLayer (fst p)))
    (List.filter (fun p => negb (MatchString skipCreatedByPattern (CreatedBy (snd p)))) ps).
Proof.
  induction ps as [| [l h] ps IH]; [reflexivity|].
  cbn [List.filter].
  change (keptPair (l, h)) with
    (negb (isForeignLayer l) && negb (MatchString skipCreatedByPattern (CreatedBy h))).
  cbn [fst snd].
  destruct (MatchString skipCreatedByPattern (CreatedBy h)); cbn [negb];
    rewrite ?andb_false_r, ?andb_true_r.
  - exact IH.
  - cbn [List.filter fst]. destruct (negb (isForeignLayer l)); [f_equal|]; exact IH.
Qed.

(** C4: apart from the foreign-media-type rule, a bound layer is dropped
    exactly when its [created_by] matches [skipCreatedByPattern]; the
    Windows [EXPOSE] entry is dropped and the buildkit [COPY] entry kept. *)
Theorem filterLayers_ignored_directives (baseURL : string) (manifest : imageManifestV1)
    (config : imageConfigV1) :
  (History config <> [] ->
   (length (m_Layers manifest) <= length (nonEmptyHistory (History config)))%nat ->
   filterLayers baseURL manifest config =
     Some (map (bindLayer baseURL)
       (List.filter (fun p => negb (isForeignLayer (fst p)))
         (List.filter (fun p => negb (MatchString skipCreatedByPattern (CreatedBy (snd p))))
            (combine (m_Layers manifest) (nonEmptyHistory (History config))))))) /\
  MatchString skipCreatedByPattern "cmd /S /C #(nop)  EXPOSE 10000" = true /\
  MatchString skipCreatedByPattern "COPY ci/docker-entrypoint.sh / # buildkit" = false /\
  filterLayers baseURL (oneLayerManifest mediaTypeDockerImageLayer)
    (oneEntryConfig "cmd /S /C #(nop)  EXPOSE 10000") = Some [] /\
  filterLayers baseURL (oneLayerManifest mediaTypeDockerImageLayer)
    (oneEntryConfig "COPY ci/docker-entrypoint.sh / # buildkit") =
    Some [mkFilesystemLayer (baseURL +:+ "/blobs/sha256:l1") mediaTypeDockerImageLayer 10
            "COPY ci/docker-entrypoint.sh / # buildkit" EmptyString].
Proof.
  split; [| split; [| split; [| split]]].
  - intros Hh Hlen. unfold filterLayers.
    destruct (History config) as [| h0 hs]; [contradiction|]. cbn [length Nat.eqb].
    rewrite filterLayers_loop_enough by exact Hlen. f_equal. f_equal.
    apply keptPair_filter.
  - vm_compute. reflexivity.
  - vm_compute. reflexivity.
  - unfold filterLayers. cbn [m_Layers History oneLayerManifest oneEntryConfig length Nat.eqb].
    cbn [filterLayers_loop nextHistory EmptyLayer CreatedBy d_MediaType].
    replace (String.eqb mediaTypeDockerImageLayer mediaTypeDockerImageForeignLayer) with false
      by (vm_compute; reflexivity).
    replace (MatchString skipCreatedByPattern "cmd /S /C #(nop)  EXPOSE 10000") with true
      by (vm_compute; reflexivity).
    reflexivity.
  - unfold filterLayers. cbn [m_Layers History oneLayerManifest oneEntryConfig length Nat.eqb].
    cbn [filterLayers_loop nextHistory EmptyLayer CreatedBy d_MediaType].
    replace (String.eqb mediaTypeDockerImageLayer mediaTypeDockerImageForeignLayer) with false
      by (vm_compute; reflexivity).
    replace (MatchString skipCreatedByPattern "COPY ci/docker-entrypoint.sh / # buildkit") with false
      by (vm_compute; reflexivity).
    reflexivity.
Qed.

Lemma filterLayers_ignored_directives_witness :
  filterLayers "b" (mkManifest "u" (layerDigest "cfg") [layerDigest "sha256:a"])
    (mkConfig "amd64" "windows" EmptyString [mkHistory "cmd /S /C #(nop)  USER ContainerUser" false])
  = Some [].
Proof.
  destruct (filterLayers_ignored_directives "b" (mkManifest "u" (layerDigest "cfg") [layerDigest "sha256:a"])
    (mkConfig "amd64" "windows" EmptyString [mkHistory "cmd /S /C #(nop)  USER ContainerUser" false]))
    as [H _].
  rewrite H; [vm_compute; reflexivity | discriminate | vm_compute; lia].
Defined.

Lemma filterLayers_loop_no_foreign (baseURL : string) (layers : list descriptorV1) :
  forall (hist : list historyV1) (out : list FilesystemLayer),
  filterLayers_loop baseURL layers hist = Some out ->
  Forall (fun fl => fl_mediaType fl <> mediaTypeDockerImageForeignLayer) out.
Proof.
  induction layers as [| l ls IH]; intros hist out H.
  - injection H as <-. constructor.
  - cbn [filterLayers_loop] in H.
    destruct (nextHistory hist) as [[h hist'] |]; [| discriminate].
    destruct (filterLayers_loop baseURL ls hist') as [rest |] eqn:Hr; [| discriminate].
    specialize (IH hist' rest Hr).
    destruct (String.eqb_spec (d_MediaType l) mediaTypeDockerImageForeignLayer) as [Hf | Hf].
    + injection H as <-. exact IH.
    + destruct (MatchString skipCreatedByPattern (CreatedBy h)).
      * injection H as <-. exact IH.
      * injection H as <-. constructor; [exact Hf | exact IH].
Qed.

Definition mediaTypeOCIImageLayerUncompressed : string := "application/vnd.oci.image.layer.v1.tar".

(** C6 fails as stated: a layer of a media type outside the recognized
    rootfs/Wasm set (here an uncompressed OCI layer) is kept by
    [filterLayers]. *)
Lemma filterLayers_keeps_unrecognized_type :
  mediaTypeOCIImageLayerUncompressed <> mediaTypeOCIImageLayer /\
  mediaTypeOCIImageLayerUncompressed <> mediaTypeDockerImageLayer /\
  mediaTypeOCIImageLayerUncompressed <> mediaTypeWasmImageLayer /\
  mediaTypeOCIImageLayerUncompressed <> mediaTypeWasmImageConfig /\
  filterLayers "https://test/v2/user/repo" (oneLayerManifest mediaTypeOCIImageLayerUncompressed)
    (oneEntryConfig "COPY app /app") =
  Some [mkFilesystemLayer "https://test/v2/user/repo/blobs/sha256:l1"
          mediaTypeOCIImageLayerUncompressed 10 "COPY app /app" EmptyString].
Proof. split; [discriminate|]. split; [discriminate|]. split; [discriminate|]. split; [discriminate|]. vm_compute. reflexivity. Qed.

Lemma MatchString_skip_empty : MatchString skipCreatedByPattern EmptyString = false.
Proof. vm_compute. reflexivity. Qed.

Lemma filterLayers_empty_history_eq (baseURL : string) (manifest : imageManifestV1)
    (config : imageConfigV1) :
  History config = [] ->
  filterLayers baseURL manifest config =
  Some (map (fun l => newFilesystemLayer l baseURL EmptyString)
          (List.filter (fun l => negb (isForeignLayer l)) (m_Layers manifest))).
Proof.
  intros Hh. unfold filterLayers. rewrite Hh. cbn [length Nat.eqb].
  rewrite filterLayers_loop_enough by (rewrite nonEmptyHistory_zero, repeat_length; lia).
  rewrite nonEmptyHistory_zero. f_equal.
  induction (m_Layers manifest) as [|l ls IH]; [reflexivity|].
  cbn [repeat length combine List.filter].
  unfold keptPair at 1. cbn [fst snd CreatedBy zeroHistory]. rewrite MatchString_skip_empty.
  rewrite andb_true_r. destruct (negb (isForeignLayer l)); cbn [map]; [|exact IH].
  rewrite IH. reflexivity.
Qed.

(** C6 (amended): for every manifest and config, assembly drops every layer
    of the foreign Docker media type, and that is its only media-type rule:
    with enough non-empty history entries, the kept layers are the bound
    pairs whose layer is not of the foreign type and whose [created_by] does
    not match the ignored-directive pattern, so a layer of any other media
    type, recognized or not, is kept unless its [created_by] matches; with
    an empty history every non-foreign layer is kept.  [ReadFilesystemLayer]
    later rejects a layer whose media type is not one of the rootfs-tar or
    Wasm types with [unexpected media type]. *)
Theorem filterLayers_media_types (baseURL : string) :
  (forall manifest config out, filterLayers baseURL manifest config = Some out ->
     Forall (fun fl => fl_mediaType fl <> mediaTypeDockerImageForeignLayer) out) /\
  (forall manifest config,
     History config <> [] ->
     (length (m_Layers manifest) <= length (nonEmptyHistory (History config)))%nat ->
     filterLayers baseURL manifest config =
       Some (map (bindLayer baseURL)
         (List.filter (fun p => negb (String.eqb (d_MediaType (fst p)) mediaTypeDockerImageForeignLayer)
                                && negb (MatchString skipCreatedByPattern (CreatedBy (snd p))))
            (combine (m_Layers manifest) (nonEmptyHistory (History config))))) /\
     (forall l h, In (l, h) (combine (m_Layers manifest) (nonEmptyHistory (History config))) ->
        d_MediaType l <> mediaTypeDockerImageForeignLayer ->
        MatchString skipCreatedByPattern (CreatedBy h) = false ->
        exists out, filterLayers baseURL manifest config = Some out /\
                    In (newFilesystemLayer l baseURL (CreatedBy h)) out)) /\
  (forall manifest config, History config = [] ->
     filterLayers baseURL manifest config =
       Some (map (fun l => newFilesystemLayer l baseURL EmptyString)
               (List.filter (fun l => negb (String.eqb (d_MediaType l) mediaTypeDockerImageForeignLayer))
                  (m_Layers manifest)))) /\
  (forall (Body : Type) httpGet gzipTar readFile now (layer : FilesystemLayer),
     fl_mediaType layer <> mediaTypeOCIImageLayer ->
     fl_mediaType layer <> mediaTypeDockerImageLayer ->
     fl_mediaType layer <> mediaTypeWasmImageLayer ->
     fl_mediaType layer <> mediaTypeWasmImageConfig ->
     ReadFilesystemLayer Body httpGet gzipTar readFile now layer =
       ([], Some ("unexpected media type: " +:+ fl_mediaType layer))).
Proof.
  split; [| split; [| split]].
  - intros manifest config out H. unfold filterLayers in H.
    eapply filterLayers_loop_no_foreign. exact H.
  - intros manifest config Hh Hlen.
    assert (Heq : filterLayers baseURL manifest config =
      Some (map (bindLayer baseURL)
        (List.filter keptPair (combine (m_Layers manifest) (nonEmptyHistory (History config)))))).
    { unfold filterLayers.
      destruct (History config) as [| h0 hs]; [contradiction|]. cbn [length Nat.eqb].
      apply filterLayers_loop_enough, Hlen. }
    split; [exact Heq|].
    intros l h Hin Hf Hm. eexists. split; [exact Heq|].
    apply (in_map (bindLayer baseURL) _ (l, h)). apply filter_In. split; [exact Hin|].
    unfold keptPair, isForeignLayer. cbn [fst snd].
    apply String.eqb_neq in Hf. rewrite Hf, Hm. reflexivity.
  - intros manifest config Hh. apply filterLayers_empty_history_eq, Hh.
  - intros Body httpGet gzipTar readFile now layer H1 H2 H3 H4. unfold ReadFilesystemLayer.
    apply String.eqb_neq in H1, H2, H3, H4. rewrite H1, H2, H3, H4. reflexivity.
Qed.

Definition uncompressedLayer : descriptorV1 :=
  mkDescriptor mediaTypeOCIImageLayerUncompressed "sha256:u" 10 ∅.

Lemma filterLayers_media_types_witness :
  (exists out,
     filterLayers "b"
       (mkManifest "u" (layerDigest "cfg")
          [mkDescriptor mediaTypeDockerImageForeignLayer "sha256:f" 5 ∅; uncompressedLayer])
       (mkConfig "amd64" "windows" EmptyString
          [mkHistory "Apply image 10.0.17763.1" false; mkHistory "cmd /S /C #(nop)  ENV A=1" true;
           mkHistory "COPY app /app" false]) = Some out /\
     In (newFilesystemLayer uncompressedLayer "b" "COPY app /app") out) /\
  ReadFilesystemLayer unit (fun _ _ => Ok tt) (fun _ => Err "not gzip") (fun _ => None) 0
    (mkFilesystemLayer "b/blobs/sha256:u" mediaTypeOCIImageLayerUncompressed 10 "COPY app /app" EmptyString) =
    ([], Some ("unexpected media type: " +:+ mediaTypeOCIImageLayerUncompressed)).
Proof.
  destruct (filterLayers_media_types "b") as (_ & H2 & _ & H4). split.
  - refine (proj2 (H2 _ _ _ _) uncompressedLayer (mkHistory "COPY app /app" false) _ _ _).
    all: first [ discriminate | (vm_compute; lia) | (vm_compute; right; left; reflexivity)
               | (vm_compute; reflexivity) ].
  - apply (H4 unit); discriminate.
Defined.

Lemma filterLayers_short_history (baseURL : string) (manifest : imageManifestV1)
    (config : imageConfigV1) :
  History config <> [] ->
  (length (nonEmptyHistory (History config)) < length (m_Layers manifest))%nat ->
  filterLayers baseURL manifest config = None.
Proof.
  intros Hh Hlen. unfold filterLayers.
  destruct (History config) as [| h0 hs]; [contradiction|]. cbn [length Nat.eqb].
  apply filterLayers_loop_short. exact Hlen.
Qed.

(** C10: a config whose only history entry is [empty_layer], for a
    manifest with one layer, makes the history cursor run past the end of
    the history ([history[k]] out of range, a run-time panic in Go) while
    [newImage] assembles the image. *)
Theorem newImage_history_out_of_range :
  newImage "https://test/v2/user/repo" (oneLayerManifest mediaTypeDockerImageLayer)
    (mkConfig "amd64" "linux" EmptyString [mkHistory "/bin/sh -c #(nop)  ENV A=1" true]) = None.
Proof.
  unfold newImage. rewrite filterLayers_short_history; [reflexivity | discriminate |].
  vm_compute. lia.
Qed.

(** ** Platform selection *)

(** A single path element that [path.Clean] leaves as it is: non-empty,
    not [.] or [..], and without a slash. *)
Definition simpleElem (s : string) : bool :=
  negb (String.eqb s EmptyString) && negb (String.eqb s ".") &&
  negb (String.eqb s "..") && negb (contains s "/").

Definition mediaTypeOCIImageManifest : string := "application/vnd.oci.image.manifest.v1+json".

(** Two darwin/amd64 entries of a Homebrew index, differing in os.version. *)
Definition macOS10Ref : imageManifestReferenceV1 :=
  mkManifestRef mediaTypeOCIImageManifest "sha256:macos10"
    (mkPlatform "amd64" "darwin" "macOS 10.15.7").

Definition macOS11Ref : imageManifestReferenceV1 :=
  mkManifestRef mediaTypeOCIImageManifest "sha256:macos11"
    (mkPlatform "amd64" "darwin" "macOS 11.3").

Definition homebrewBaseURL : string := "https://ghcr.io/v2".

Lemma string_app_cons (c : ascii) (a b : string) : String c a +:+ b = String c (a +:+ b).
Proof. reflexivity. Qed.

Lemma string_app_nil_l (b : string) : EmptyString +:+ b = b.
Proof. reflexivity. Qed.

Lemma string_app_nil_r (s : string) : s +:+ EmptyString = s.
Proof. induction s as [|c s IH]; [reflexivity | rewrite string_app_cons, IH; reflexivity]. Qed.

Lemma string_app_assoc (a b c : string) : (a +:+ b) +:+ c = a +:+ (b +:+ c).
Proof.
  induction a as [|x a IH]; [reflexivity|].
  rewrite !string_app_cons, IH. reflexivity.
Qed.

Lemma hasPrefix_nil (s : string) : hasPrefix s EmptyString = true.
Proof. destruct s; reflexivity. Qed.

Lemma contains_slash_cons (c : ascii) (s : string) :
  contains (String c s) "/" = false -> Ascii.eqb c "/" = false /\ contains s "/" = false.
Proof.
  cbn [contains hasPrefix]. rewrite hasPrefix_nil, andb_true_r.
  intros H. apply orb_false_iff in H as [H1 H2]. split; [|exact H2].
  rewrite Ascii.eqb_sym. exact H1.
Qed.

Lemma splitSlash_aux_noSlash (s t cur : string) :
  contains s "/" = false -> splitSlash_aux (s +:+ t) cur = splitSlash_aux t (cur +:+ s).
Proof.
  revert cur. induction s as [|c s IH]; intros cur Hs.
  - rewrite string_app_nil_l, string_app_nil_r. reflexivity.
  - apply contains_slash_cons in Hs as [Hc Hs].
    rewrite string_app_cons. cbn [splitSlash_aux]. rewrite Hc, IH by exact Hs.
    rewrite string_app_assoc, string_app_cons, string_app_nil_l. reflexivity.
Qed.

Lemma splitSlash_two (a b : string) :
  contains a "/" = false -> contains b "/" = false ->
  splitSlash (a +:+ "/" +:+ b) = [a; b].
Proof.
  intros Ha Hb. unfold splitSlash.
  rewrite splitSlash_aux_noSlash by exact Ha.
  rewrite string_app_cons, string_app_nil_l. cbn [splitSlash_aux Ascii.eqb].
  rewrite string_app_nil_l.
  rewrite <- (string_app_nil_r b) at 1. rewrite splitSlash_aux_noSlash by exact Hb.
  rewrite string_app_nil_l. reflexivity.
Qed.

Lemma pathJoin_simple (os arch : string) :
  simpleElem os = true -> simpleElem arch = true ->
  pathJoin os arch = os +:+ "/" +:+ arch.
Proof.
  unfold simpleElem. intros Ho Ha.
  repeat (apply andb_true_iff in Ho as [Ho ?]). repeat (apply andb_true_iff in Ha as [Ha ?]).
  repeat match goal with H : negb _ = true |- _ => apply negb_true_iff in H end.
  unfold pathJoin. rewrite Ho. cbn [negb].
  destruct os as [|c os']; [discriminate|].
  assert (Hc : Ascii.eqb "/" c = false).
  { destruct (contains_slash_cons c os') as [H' _]; [assumption|]. now rewrite Ascii.eqb_sym. }
  unfold Clean. rewrite string_app_cons. cbn [String.eqb hasPrefix]. rewrite Hc. cbn [andb].
  rewrite <- string_app_cons.
  rewrite splitSlash_two by assumption.
  cbn [cleanElems]. repeat match goal with H : String.eqb _ _ = false |- _ => rewrite H end.
  cbn [orb rev app strings_Join].
  rewrite string_app_cons. cbn [String.eqb]. rewrite <- string_app_cons. reflexivity.
Qed.

(** C8: selection from a multi-platform index.  Each entry is keyed by
    [path.Join(os, arch)], which is ["<os>/<arch>"] for plain names; an
    entry whose derived platform is empty leaves the three maps as they
    were; an entry whose os.version is at least (lexicographically) the one
    recorded for its platform overwrites that platform's URL, os.version
    and media type, and leaves the other platforms alone; a smaller
    os.version is ignored.  So with the two darwin/amd64 entries of a
    Homebrew index, 'macOS 10.15.7' and 'macOS 11.3', in either order, the
    'macOS 11.3' manifest is selected. *)
Theorem findPlatformManifest_newest_os_version :
  (forall os arch, simpleElem os = true -> simpleElem arch = true ->
     pathJoin os arch = os +:+ "/" +:+ arch) /\
  (forall baseURL path st ref,
     pathJoin (p_OS (r_Platform ref)) (p_Architecture (r_Platform ref)) = EmptyString ->
     recordManifest baseURL path st ref = st) /\
  (forall baseURL path st ref p url,
     p = pathJoin (p_OS (r_Platform ref)) (p_Architecture (r_Platform ref)) ->
     p <> EmptyString ->
     url = baseURL +:+ "/" +:+ path +:+ "/manifests/" +:+ r_Digest ref ->
     String.leb (mapGet (platformToOSVersion st) p) (p_OSVersion (r_Platform ref)) = true ->
     platformToURL (recordManifest baseURL path st ref) !! p = Some url /\
     platformToOSVersion (recordManifest baseURL path st ref) !! p =
       Some (p_OSVersion (r_Platform ref)) /\
     urlToMediaType (recordManifest baseURL path st ref) !! url = Some (r_MediaType ref) /\
     (forall q, q <> p ->
        platformToURL (recordManifest baseURL path st ref) !! q = platformToURL st !! q /\
        platformToOSVersion (recordManifest baseURL path st ref) !! q =
          platformToOSVersion st !! q)) /\
  (forall baseURL path st ref,
     String.leb (mapGet (platformToOSVersion st)
                   (pathJoin (p_OS (r_Platform ref)) (p_Architecture (r_Platform ref))))
                (p_OSVersion (r_Platform ref)) = false ->
     recordManifest baseURL path st ref = st) /\
  (forall platform, platform = EmptyString \/ platform = "darwin/amd64" ->
     findPlatformManifest homebrewBaseURL "homebrew/core/envoy" [macOS10Ref; macOS11Ref] platform =
       Ok ("https://ghcr.io/v2/homebrew/core/envoy/manifests/sha256:macos11",
           mediaTypeOCIImageManifest) /\
     findPlatformManifest homebrewBaseURL "homebrew/core/envoy" [macOS11Ref; macOS10Ref] platform =
       Ok ("https://ghcr.io/v2/homebrew/core/envoy/manifests/sha256:macos11",
           mediaTypeOCIImageManifest)).
Proof.
  split; [exact pathJoin_simple|].
  split.
  { intros baseURL path st ref Hp. unfold recordManifest. rewrite Hp. reflexivity. }
  split.
  { intros baseURL path st ref p url -> Hp -> Hle.
    unfold recordManifest. apply String.eqb_neq in Hp. rewrite Hp, Hle. cbn.
    split; [apply lookup_insert_eq|]. split; [apply lookup_insert_eq|]. split; [apply lookup_insert_eq|].
    intros q Hq. apply String.eqb_neq in Hp.
    split; apply lookup_insert_ne; congruence. }
  split.
  { intros baseURL path st ref Hlt. unfold recordManifest.
    destruct (String.eqb _ EmptyString); [reflexivity|]. rewrite Hlt. reflexivity. }
  intros platform [-> | ->]; split; vm_compute; reflexivity.
Qed.

Lemma findPlatformManifest_newest_os_version_witness :
  platformToURL (recordManifest homebrewBaseURL "homebrew/core/envoy"
                   (recordManifest homebrewBaseURL "homebrew/core/envoy" emptyPlatformMaps macOS10Ref)
                   macOS11Ref) !! "darwin/amd64" =
    Some "https://ghcr.io/v2/homebrew/core/envoy/manifests/sha256:macos11".
Proof.
  refine (proj1 (proj1 (proj2 (proj2 findPlatformManifest_newest_os_version))
    homebrewBaseURL "homebrew/core/envoy"
    (recordManifest homebrewBaseURL "homebrew/core/envoy" emptyPlatformMaps macOS10Ref)
    macOS11Ref "darwin/amd64"
    "https://ghcr.io/v2/homebrew/core/envoy/manifests/sha256:macos11" _ _ _ _));
    [vm_compute; reflexivity | discriminate | reflexivity | vm_compute; reflexivity].
Defined.

(** ** The pattern matcher and the [do] driver *)

Lemma List_filter_nil_iff {A} (f : A -> bool) (l : list A) :
  List.filter f l = [] <-> (forall x, In x l -> f x = false).
Proof.
  induction l as [|a l IH]; cbn [List.filter In].
  - split; [intros _ x []|reflexivity].
  - destruct (f a) eqn:Ea.
    + split; [discriminate|]. intros H. rewrite (H a (or_introl eq_refl)) in Ea. discriminate.
    + rewrite IH. split.
      * intros H x [<-|Hx]; [exact Ea|exact (H x Hx)].
      * intros H x Hx. exact (H x (or_intror Hx)).
Qed.

Section RunProperties.
Variable filepathMatch : string -> string -> bool.
Variable iterate : gmap string bool -> list (string * bool).
Variable Body : Type.
Variable getImageLayers : result (list FilesystemLayer).
Variable layerEntries : FilesystemLayer -> list (call Body) * option string.
Variable wrapCallbackError : call Body -> string -> string.
Variable action : call Body -> option string.
Variable createdByPattern : option (string -> bool).
Variable filePatterns : list string.
Variable fastReadFlag : bool.
(** Go's [range] over a map visits each entry exactly once. *)
Hypothesis iterate_perm : forall m, iterate m ≡ₚ map_to_list m.

Local Notation loop := (layersLoop filepathMatch iterate Body layerEntries wrapCallbackError action).
Local Notation runDo := (run filepathMatch iterate Body getImageLayers layerEntries
                           wrapCallbackError action createdByPattern filePatterns fastReadFlag).

Lemma In_Unmatched (pm : patternMatcher) (p : string) :
  In p (Unmatched iterate pm) <-> patterns pm !! p = Some false.
Proof.
  unfold Unmatched. rewrite in_map_iff. split.
  - intros [[q b] [Hq Hin]]. cbn in Hq. subst q.
    apply filter_In in Hin as [Hin Hb]. cbn in Hb. apply negb_true_iff in Hb. subst b.
    apply elem_of_map_to_list. apply list_elem_of_In.
    apply (Permutation_in _ (iterate_perm (patterns pm))). exact Hin.
  - intros Hp. exists (p, false). split; [reflexivity|].
    apply filter_In. split; [|reflexivity].
    apply (Permutation_in _ (Permutation_sym (iterate_perm (patterns pm)))).
    apply list_elem_of_In. apply elem_of_map_to_list. exact Hp.
Qed.

Lemma Unmatched_nil_iff (pm : patternMatcher) :
  Unmatched iterate pm = [] <-> map_Forall (fun _ b => b = true) (patterns pm).
Proof.
  split.
  - intros Hnil p b Hp. destruct b; [reflexivity|].
    apply (In_Unmatched pm p) in Hp. rewrite Hnil in Hp. destruct Hp.
  - intros Hall. destruct (Unmatched iterate pm) as [|p ps] eqn:E; [reflexivity|].
    assert (Hin : In p (Unmatched iterate pm)) by (rewrite E; left; reflexivity).
    apply In_Unmatched in Hin. apply Hall in Hin. discriminate.
Qed.

Lemma StillMatching_false_iff (pm : patternMatcher) :
  StillMatching iterate pm = false <->
  fastRead pm = true /\ size (patterns pm) <> 0%nat /\
  map_Forall (fun _ b => b = true) (patterns pm).
Proof.
  unfold StillMatching. rewrite <- Unmatched_nil_iff.
  rewrite !orb_false_iff, negb_false_iff, Nat.eqb_neq, Nat.ltb_ge.
  split.
  - intros [[Hf Hs] Hl]. split; [exact Hf|]. split; [exact Hs|].
    destruct (Unmatched iterate pm); [reflexivity|]. cbn in Hl. lia.
  - intros [Hf [Hs Hl]]. rewrite Hl. split; [split|]; [exact Hf|exact Hs|cbn; lia].
Qed.

Lemma layersLoop_trace (layers : list FilesystemLayer) (pm pm' : patternMatcher)
    (read : list (FilesystemLayer * patternMatcher)) (r : option string) :
  loop pm layers = (pm', read, r) ->
  map fst read `prefix_of` layers /\
  (forall i l q, read !! i = Some (l, q) -> StillMatching iterate q = false ->
     length read = S i) /\
  (r = None -> (forall i l q, read !! i = Some (l, q) -> StillMatching iterate q = true) ->
     map fst read = layers).
Proof.
  revert pm pm' read r. induction layers as [|l rest IH]; intros pm pm' read r Hloop.
  - cbn in Hloop. injection Hloop as <- <- <-. cbn.
    split; [apply prefix_nil|]. split; [intros i l q Hi; discriminate|]. intros _ _. reflexivity.
  - cbn [layersLoop] in Hloop.
    destruct (readLayer filepathMatch iterate Body layerEntries wrapCallbackError action pm l)
      as [pm1 err] eqn:Hread.
    destruct err as [e|].
    + injection Hloop as <- <- <-. cbn.
      split; [apply prefix_cons, prefix_nil|].
      split; [intros [|i] l' q Hi _; [reflexivity|discriminate]|]. discriminate.
    + destruct (StillMatching iterate pm1) eqn:Hsm; cbn [negb] in Hloop.
      * destruct (loop pm1 rest) as [[pm'' read'] r'] eqn:Hrest.
        injection Hloop as <- <- <-.
        destruct (IH _ _ _ _ Hrest) as [Hpre [Hstop Hall]].
        split; [cbn; apply prefix_cons, Hpre|].
        split.
        -- intros [|i] l' q Hi Hq; cbn in Hi.
           ++ injection Hi as <- <-. congruence.
           ++ cbn. f_equal. exact (Hstop i l' q Hi Hq).
        -- intros Hr Hsm'. cbn. f_equal. apply Hall; [exact Hr|].
           intros i l' q Hi. exact (Hsm' (S i) l' q Hi).
      * injection Hloop as <- <- <-. cbn.
        split; [apply prefix_cons, prefix_nil|].
        split; [intros [|i] l' q Hi _; [reflexivity|discriminate]|].
        intros _ Hsm'. specialize (Hsm' 0%nat l pm1 eq_refl). congruence.
Qed.

(** C5 (as the code has it): [StillMatching] is false exactly when
    fast_read is on, the pattern set is non-empty and every pattern's flag
    is set; the driver reads the filtered layers in order and reads no
    further layer after one that leaves [StillMatching] false, and reads
    them all otherwise (barring an error).  The run returns an error of
    getting the image, or of reading a layer (the callback's included), as
    it is; only when the image's layers were obtained and every layer read
    succeeded does it return ['<joined patterns> not found in layer'], and
    then exactly when some pattern's flag is still unset. *)
Theorem run_not_found_after_clean_read :
  (forall pm, StillMatching iterate pm = false <->
     fastRead pm = true /\ size (patterns pm) <> 0%nat /\
     map_Forall (fun _ b => b = true) (patterns pm)) /\
  (forall layers pm pm' read r, loop pm layers = (pm', read, r) ->
     map fst read `prefix_of` layers /\
     (forall i l q, read !! i = Some (l, q) -> StillMatching iterate q = false ->
        length read = S i) /\
     (r = None -> (forall i l q, read !! i = Some (l, q) -> StillMatching iterate q = true) ->
        map fst read = layers)) /\
  (forall e, getImageLayers = Err e -> runDo = ([], Some e)) /\
  (forall layers pm' read e, getImageLayers = Ok layers ->
     loop (New filePatterns fastReadFlag) (List.filter (createdByFilter createdByPattern) layers)
       = (pm', read, Some e) ->
     runDo = (read, Some e)) /\
  (forall layers pm' read, getImageLayers = Ok layers ->
     loop (New filePatterns fastReadFlag) (List.filter (createdByFilter createdByPattern) layers)
       = (pm', read, None) ->
     fst runDo = read /\
     (forall p, In p (Unmatched iterate pm') <-> patterns pm' !! p = Some false) /\
     (Unmatched iterate pm' <> [] ->
        snd runDo = Some (strings_Join (Unmatched iterate pm') ", " +:+ " not found in layer")) /\
     (Unmatched iterate pm' = [] -> snd runDo = None)).
Proof.
  split; [exact StillMatching_false_iff|].
  split; [intros layers pm pm' read r; apply layersLoop_trace|].
  split; [intros e He; unfold run; rewrite He; reflexivity|].
  split.
  { intros layers pm' read e Hl Hloop. unfold run. rewrite Hl. rewrite Hloop. reflexivity. }
  intros layers pm' read Hl Hloop. unfold run. rewrite Hl. rewrite Hloop.
  split; [destruct (Nat.ltb _ _); reflexivity|].
  split; [apply In_Unmatched|].
  split.
  - intros Hne. destruct (Unmatched iterate pm') as [|p ps]; [contradiction|]. reflexivity.
  - intros ->. reflexivity.
Qed.

End RunProperties.

(** A filesystem layer with no files of interest. *)
Definition plainLayer : FilesystemLayer :=
  mkFilesystemLayer "https://test/v2/user/repo/blobs/sha256:l1" mediaTypeDockerImageLayer 10
    "/bin/sh -c #(nop) ADD file:abc in /" EmptyString.

(** C5: a pattern that no scanned entry satisfied does not make the run
    return ['<joined patterns> not found in layer'] when reading a layer
    fails: the read error is returned instead. *)
Lemma run_layer_error_not_not_found :
  Unmatched map_to_list (New ["robots"] true) = ["robots"] /\
  run String.eqb map_to_list unit (Ok [plainLayer]) (fun _ => ([], Some "unexpected EOF"))
    (fun _ e => e) (fun _ => None) None ["robots"] true =
    ([(plainLayer, New ["robots"] true)], Some "unexpected EOF") /\
  "unexpected EOF" <> strings_Join ["robots"] ", " +:+ " not found in layer".
Proof.
  split; [vm_compute; reflexivity|]. split; [vm_compute; reflexivity|]. discriminate.
Qed.

Lemma run_not_found_after_clean_read_witness :
  run String.eqb map_to_list unit (Ok [plainLayer]) (fun _ => ([], None))
    (fun _ e => e) (fun _ => None) None ["robots"] true =
    ([(plainLayer, New ["robots"] true)], Some "robots not found in layer").
Proof.
  destruct (proj2 (proj2 (proj2 (proj2 (run_not_found_after_clean_read String.eqb map_to_list unit
    (Ok [plainLayer]) (fun _ => ([], None)) (fun _ e => e) (fun _ => None) None ["robots"] true
    (fun m => Permutation_refl (map_to_list m))))))
    [plainLayer] (New ["robots"] true) [(plainLayer, New ["robots"] true)] eq_refl
    ltac:(vm_compute; reflexivity)) as [Hfst [_ [Hne _]]].
  rewrite (surjective_pairing (run _ _ _ _ _ _ _ _ _ _)), Hfst, Hne by (vm_compute; discriminate).
  vm_compute. reflexivity.
Defined.

(** * Further properties of the code *)

(** ** String lemmas for [strings.IndexByte], [strings.LastIndexByte] and slicing *)

Lemma contains1_nil (c : ascii) : contains EmptyString (String c EmptyString) = false.
Proof. reflexivity. Qed.

Lemma contains1_cons (c d : ascii) (s : string) :
  contains (String d s) (String c EmptyString) =
  Ascii.eqb c d || contains s (String c EmptyString).
Proof. cbn [contains hasPrefix]. rewrite hasPrefix_nil, andb_true_r. reflexivity. Qed.

Lemma contains1_app (c : ascii) (a b : string) :
  contains (a +:+ b) (String c EmptyString) =
  contains a (String c EmptyString) || contains b (String c EmptyString).
Proof.
  induction a as [|d a IH]; [reflexivity|].
  rewrite string_app_cons, !contains1_cons, IH. apply orb_assoc.
Qed.

Lemma string_length_app (a b : string) :
  String.length (a +:+ b) = (String.length a + String.length b)%nat.
Proof. induction a as [|d a IH]; [reflexivity|]. rewrite string_app_cons. cbn. rewrite IH. reflexivity. Qed.

Lemma len_app (a b : string) : len (a +:+ b) = len a + len b.
Proof. unfold len. rewrite string_length_app. lia. Qed.

Lemma len_cons (c : ascii) (s : string) : len (String c s) = len s + 1.
Proof. unfold len. cbn [String.length]. lia. Qed.

Lemma len_nonneg (s : string) : 0 <= len s.
Proof. unfold len. lia. Qed.

Lemma indexByte_from_none (s : string) (c : ascii) (i : Z) :
  contains s (String c EmptyString) = false -> indexByte_from s c i = -1.
Proof.
  revert i. induction s as [|d s IH]; intros i H; [reflexivity|].
  rewrite contains1_cons in H. apply orb_false_iff in H as [Hd Hs].
  cbn [indexByte_from]. rewrite Ascii.eqb_sym, Hd. apply IH, Hs.
Qed.

Lemma indexByte_from_app (a b : string) (c : ascii) (i : Z) :
  contains a (String c EmptyString) = false ->
  indexByte_from (a +:+ b) c i = indexByte_from b c (i + len a).
Proof.
  revert i. induction a as [|d a IH]; intros i H.
  - rewrite string_app_nil_l. unfold len. cbn. f_equal. lia.
  - rewrite contains1_cons in H. apply orb_false_iff in H as [Hd Ha].
    rewrite string_app_cons. cbn [indexByte_from]. rewrite Ascii.eqb_sym, Hd, IH by exact Ha.
    rewrite len_cons. f_equal. lia.
Qed.

Lemma indexByte_from_hit (c : ascii) (s : string) (i : Z) : indexByte_from (String c s) c i = i.
Proof. cbn [indexByte_from]. rewrite Ascii.eqb_refl. reflexivity. Qed.

Lemma indexByte_from_found (s : string) (c : ascii) (i : Z) :
  0 <= i -> contains s (String c EmptyString) = true -> i <= indexByte_from s c i.
Proof.
  revert i. induction s as [|d s IH]; intros i Hi H; [discriminate|].
  rewrite contains1_cons in H. cbn [indexByte_from].
  destruct (Ascii.eqb d c) eqn:Hd; [lia|].
  rewrite Ascii.eqb_sym, Hd in H. cbn in H. specialize (IH (i + 1) ltac:(lia) H). lia.
Qed.

Lemma lastIndexByte_from_none (s : string) (c : ascii) (i : Z) :
  contains s (String c EmptyString) = false -> lastIndexByte_from s c i = -1.
Proof.
  revert i. induction s as [|d s IH]; intros i H; [reflexivity|].
  rewrite contains1_cons in H. apply orb_false_iff in H as [Hd Hs].
  cbn [lastIndexByte_from]. rewrite IH by exact Hs. cbn. rewrite Ascii.eqb_sym, Hd. reflexivity.
Qed.

Lemma lastIndexByte_from_bound (s : string) (c : ascii) (i : Z) :
  0 <= i -> lastIndexByte_from s c i = -1 \/ i <= lastIndexByte_from s c i.
Proof.
  revert i. induction s as [|d s IH]; intros i Hi; [left; reflexivity|].
  cbn [lastIndexByte_from].
  destruct (IH (i + 1) ltac:(lia)) as [E|E].
  - rewrite E. cbn. destruct (Ascii.eqb d c); [right; lia|left; reflexivity].
  - destruct (Z.eqb_spec (lastIndexByte_from s c (i + 1)) (-1)); [lia|]. right. lia.
Qed.

Lemma lastIndexByte_from_found (s : string) (c : ascii) (i : Z) :
  0 <= i -> contains s (String c EmptyString) = true -> i <= lastIndexByte_from s c i.
Proof.
  revert i. induction s as [|d s IH]; intros i Hi H; [discriminate|].
  rewrite contains1_cons in H. cbn [lastIndexByte_from].
  destruct (contains s (String c EmptyString)) eqn:Hs.
  - specialize (IH (i + 1) ltac:(lia) eq_refl).
    destruct (Z.eqb_spec (lastIndexByte_from s c (i + 1)) (-1)); lia.
  - rewrite lastIndexByte_from_none by exact Hs. cbn.
    rewrite orb_false_r in H. rewrite Ascii.eqb_sym, H. lia.
Qed.

Lemma lastIndexByte_from_app (a b : string) (c : ascii) (i : Z) :
  lastIndexByte_from (a +:+ b) c i =
  let later := lastIndexByte_from b c (i + len a) in
  if Z.eqb later (-1) then lastIndexByte_from a c i else later.
Proof.
  revert i. induction a as [|d a IH]; intros i.
  - rewrite string_app_nil_l. cbn -[lastIndexByte_from].
    replace (i + len EmptyString) with i by (unfold len; cbn; lia).
    destruct (Z.eqb_spec (lastIndexByte_from b c i) (-1)) as [E|E]; [rewrite E; reflexivity|reflexivity].
  - rewrite string_app_cons. cbn [lastIndexByte_from]. rewrite IH. cbn zeta.
    rewrite len_cons. replace (i + 1 + len a) with (i + (len a + 1)) by lia.
    destruct (Z.eqb (lastIndexByte_from b c (i + (len a + 1))) (-1)) eqn:E; [reflexivity|rewrite E; reflexivity].
Qed.

Lemma lastIndexByte_from_hit (c : ascii) (t : string) (i : Z) :
  contains t (String c EmptyString) = false -> lastIndexByte_from (String c t) c i = i.
Proof.
  intros H. cbn [lastIndexByte_from]. rewrite lastIndexByte_from_none by exact H.
  cbn. rewrite Ascii.eqb_refl. reflexivity.
Qed.

Lemma substring_app_skip (a b : string) (n m : nat) :
  String.substring (String.length a + n) m (a +:+ b) = String.substring n m b.
Proof.
  induction a as [|d a IH]; [reflexivity|].
  rewrite string_app_cons. cbn [String.length Nat.add String.substring]. exact IH.
Qed.

Lemma substring_app_prefix (a b : string) :
  String.substring 0 (String.length a) (a +:+ b) = a.
Proof.
  induction a as [|d a IH]; [destruct b; reflexivity|].
  rewrite string_app_cons. cbn [String.length String.substring]. rewrite IH. reflexivity.
Qed.

Lemma substring_whole (a : string) : String.substring 0 (String.length a) a = a.
Proof. rewrite <- (string_app_nil_r a) at 2. apply substring_app_prefix. Qed.

(** [s[:len(a)]] of [a + rest] is [a]. *)
Lemma slice_prefix (a b : string) : slice (a +:+ b) 0 (len a) = a.
Proof.
  unfold slice, len. rewrite Z.sub_0_r, Nat2Z.id. apply substring_app_prefix.
Qed.

(** [s[len(a)+1:]] of [a + c + t] is [t]. *)
Lemma slice_after (a t : string) (c : ascii) :
  slice (a +:+ String c t) (len a + 1) (len (a +:+ String c t)) = t.
Proof.
  unfold slice. rewrite len_app, len_cons.
  replace (len a + (len t + 1) - (len a + 1)) with (len t) by lia.
  unfold len. rewrite !Nat2Z.id. replace (Z.to_nat (Z.of_nat (String.length a) + 1))
    with (String.length a + 1)%nat by lia.
  rewrite substring_app_skip. cbn [String.substring]. apply substring_whole.
Qed.

Lemma string_app_cons_neq_nil (a t : string) (c : ascii) :
  String.eqb (a +:+ String c t) EmptyString = false.
Proof. destruct a; reflexivity. Qed.

(** The position of the last colon of [a + ":" + t] when [t] has none. *)
Lemma lastIndexByte_colon (a t : string) :
  contains t ":" = false -> lastIndexByte (a +:+ String ":" t) ":" = len a.
Proof.
  intros Ht. unfold lastIndexByte. rewrite lastIndexByte_from_app. cbn zeta.
  rewrite lastIndexByte_from_hit by exact Ht.
  pose proof (len_nonneg a). destruct (Z.eqb_spec (0 + len a) (-1)); lia.
Qed.

(** The position of the first slash of [u + "/" + rest] when [u] has none. *)
Lemma indexByte_slash (u rest : string) :
  contains u "/" = false -> indexByte (u +:+ String "/" rest) "/" = len u.
Proof.
  intros Hu. unfold indexByte. rewrite indexByte_from_app by exact Hu.
  rewrite indexByte_from_hit. lia.
Qed.

Lemma ref_assoc (u r t : string) :
  u +:+ "/" +:+ r +:+ ":" +:+ t = (u +:+ String "/" r) +:+ String ":" t.
Proof. rewrite string_app_assoc. reflexivity. Qed.

Lemma Z_eqb_len_neg (s : string) : Z.eqb (len s) (-1) = false.
Proof. pose proof (len_nonneg s). apply Z.eqb_neq. lia. Qed.

(** Parse, failing cases: the empty reference is rejected as an invalid
    format; a non-empty reference with no colon, or whose first slash comes
    after its last colon (as in [host:80/image]), is rejected as untagged. *)
Theorem Parse_untagged_errors :
  Parse EmptyString = Err "invalid reference format" /\
  (forall ref, ref <> EmptyString -> contains ref ":" = false ->
     Parse ref = Err "expected tagged reference") /\
  (forall a b, contains a "/" = false -> contains b ":" = false -> contains b "/" = true ->
     Parse (a +:+ ":" +:+ b) = Err "expected tagged reference").
Proof.
  split; [reflexivity|]. split.
  - intros ref Hne Hc. unfold Parse. cbv zeta.
    destruct (String.eqb_spec ref EmptyString) as [E|_]; [contradiction|].
    unfold lastIndexByte. rewrite lastIndexByte_from_none by exact Hc. reflexivity.
  - intros a b Ha Hb Hbs. change (":" +:+ b) with (String ":" b).
    unfold Parse. cbv zeta. rewrite string_app_cons_neq_nil, lastIndexByte_colon by exact Hb.
    rewrite Z_eqb_len_neg. cbn [orb].
    unfold indexByte. rewrite indexByte_from_app by exact Ha.
    cbn [indexByte_from Ascii.eqb Bool.eqb]. cbv iota.
    pose proof (indexByte_from_found b "/" (0 + len a + 1) ltac:(pose proof (len_nonneg a); lia) Hbs).
    replace (Z.gtb (indexByte_from b "/" (0 + len a + 1)) (len a)) with true; [reflexivity|].
    symmetry. apply Z.gtb_lt. lia.
Qed.

(** Parse, familiar official images: [name:tag] with no slash is the
    Docker Hub image [library/name] on [docker.io]. *)
Theorem Parse_familiar_official (a t : string) :
  contains a "/" = false -> contains t "/" = false -> contains t ":" = false ->
  Parse (a +:+ ":" +:+ t) = Ok (mkReference "docker.io" ("library/" +:+ a) t).
Proof.
  intros Ha Ht Htc. change (":" +:+ t) with (String ":" t).
  unfold Parse. cbv zeta. rewrite string_app_cons_neq_nil, lastIndexByte_colon by exact Htc.
  assert (Hs : indexByte (a +:+ String ":" t) "/" = -1).
  { unfold indexByte. rewrite indexByte_from_app by exact Ha.
    cbn [indexByte_from Ascii.eqb Bool.eqb]. cbv iota. apply indexByte_from_none, Ht. }
  rewrite Hs, Z_eqb_len_neg. pose proof (len_nonneg a).
  replace (Z.gtb (-1) (len a)) with false by (symmetry; rewrite Z.gtb_ltb; apply Z.ltb_ge; lia).
  cbn [orb Z.eqb]. rewrite slice_after, slice_prefix. reflexivity.
Qed.

(** Parse, Docker Hub repositories: [user/repo:tag] with a single slash
    and no dot before the tag is the image [user/repo] on [docker.io]. *)
Theorem Parse_docker_hub_repository (u r t : string) :
  contains u "/" = false -> contains r "/" = false ->
  contains t "/" = false -> contains t ":" = false ->
  contains u "." = false -> contains r "." = false ->
  Parse (u +:+ "/" +:+ r +:+ ":" +:+ t) = Ok (mkReference "docker.io" (u +:+ "/" +:+ r) t).
Proof.
  intros Hu Hr Ht Htc Hud Hrd. rewrite ref_assoc.
  assert (Hs : indexByte ((u +:+ String "/" r) +:+ String ":" t) "/" = len u)
    by (rewrite string_app_assoc, string_app_cons; apply indexByte_slash, Hu).
  assert (Hla : len (u +:+ String "/" r) = len u + len r + 1)
    by (rewrite len_app, len_cons; lia).
  assert (Hl : lastIndexByte ((u +:+ String "/" r) +:+ String ":" t) "/" = len u).
  { rewrite string_app_assoc, string_app_cons. unfold lastIndexByte.
    rewrite lastIndexByte_from_app. cbn zeta. rewrite lastIndexByte_from_hit.
    - rewrite Z.add_0_l, Z_eqb_len_neg. reflexivity.
    - rewrite contains1_app, contains1_cons, Hr, Ht. reflexivity. }
  assert (Hd : indexByte (u +:+ String "/" r) "." = -1).
  { apply indexByte_from_none. rewrite contains1_app, contains1_cons, Hud, Hrd. reflexivity. }
  unfold Parse. cbv zeta. rewrite string_app_cons_neq_nil, lastIndexByte_colon by exact Htc.
  rewrite Hs, !Z_eqb_len_neg, Hla. pose proof (len_nonneg u). pose proof (len_nonneg r).
  replace (Z.gtb (len u) (len u + len r + 1)) with false
    by (symmetry; rewrite Z.gtb_ltb; apply Z.ltb_ge; lia).
  cbn [orb]. rewrite <- Hla, slice_after, slice_prefix.
  rewrite Hl, Hd, Z.eqb_refl. reflexivity.
Qed.

(** Parse, other registries: in [domain/path:tag] where the domain part has
    no slash and the tag no colon, the part before the first slash is the
    domain whenever it contains a dot or the path contains a slash. *)
Theorem Parse_registry_domain (d p t : string) :
  contains d "/" = false -> contains t ":" = false ->
  contains d "." = true \/ contains p "/" = true ->
  Parse (d +:+ "/" +:+ p +:+ ":" +:+ t) = Ok (mkReference d p t).
Proof.
  intros Hd Htc Hor. rewrite ref_assoc.
  assert (Hs : indexByte ((d +:+ String "/" p) +:+ String ":" t) "/" = len d)
    by (rewrite string_app_assoc, string_app_cons; apply indexByte_slash, Hd).
  assert (Hla : len (d +:+ String "/" p) = len d + len p + 1)
    by (rewrite len_app, len_cons; lia).
  assert (Hcond : Z.eqb (lastIndexByte ((d +:+ String "/" p) +:+ String ":" t) "/") (len d) &&
                  Z.eqb (indexByte (d +:+ String "/" p) ".") (-1) = false).
  { apply andb_false_iff. destruct Hor as [Hdot|Hps].
    - right. apply Z.eqb_neq. unfold indexByte.
      assert (Hin : contains (d +:+ String "/" p) "." = true)
        by (rewrite contains1_app, Hdot; reflexivity).
      pose proof (indexByte_from_found (d +:+ String "/" p) "." 0 ltac:(lia) Hin). lia.
    - left. apply Z.eqb_neq. rewrite string_app_assoc, string_app_cons. unfold lastIndexByte.
      rewrite lastIndexByte_from_app. cbn zeta. cbn [lastIndexByte_from].
      assert (Hin : contains (p +:+ String ":" t) "/" = true)
        by (rewrite contains1_app, Hps; reflexivity).
      pose proof (len_nonneg d).
      pose proof (lastIndexByte_from_found (p +:+ String ":" t) "/" (0 + len d + 1)
        ltac:(lia) Hin) as Hge.
      destruct (Z.eqb_spec (lastIndexByte_from (p +:+ String ":" t) "/" (0 + len d + 1)) (-1));
        [lia|]. cbv iota.
      destruct (Z.eqb_spec (lastIndexByte_from (p +:+ String ":" t) "/" (0 + len d + 1)) (-1));
        [lia|]. lia. }
  unfold Parse. cbv zeta. rewrite string_app_cons_neq_nil, lastIndexByte_colon by exact Htc.
  rewrite Hs, !Z_eqb_len_neg, Hla. pose proof (len_nonneg d). pose proof (len_nonneg p).
  replace (Z.gtb (len d) (len d + len p + 1)) with false
    by (symmetry; rewrite Z.gtb_ltb; apply Z.ltb_ge; lia).
  cbn [orb]. rewrite <- Hla, slice_after, slice_prefix, Hcond.
  rewrite slice_prefix, slice_after. reflexivity.
Qed.

Lemma Parse_untagged_errors_witness :
  Parse "alpine" = Err "expected tagged reference" /\
  Parse ("host" +:+ ":" +:+ "80/image") = Err "expected tagged reference".
Proof.
  split.
  - apply (proj1 (proj2 Parse_untagged_errors)); [discriminate | reflexivity].
  - apply (proj2 (proj2 Parse_untagged_errors)); reflexivity.
Defined.

Lemma Parse_familiar_official_witness :
  Parse ("alpine" +:+ ":" +:+ "3.14.0") =
    Ok (mkReference "docker.io" ("library/" +:+ "alpine") "3.14.0").
Proof. apply Parse_familiar_official; reflexivity. Defined.

Lemma Parse_docker_hub_repository_witness :
  Parse ("envoyproxy" +:+ "/" +:+ "envoy" +:+ ":" +:+ "v1.18.3") =
    Ok (mkReference "docker.io" ("envoyproxy" +:+ "/" +:+ "envoy") "v1.18.3") /\
  Parse ("localhost:5000" +:+ "/" +:+ "foo" +:+ ":" +:+ "1") =
    Ok (mkReference "docker.io" ("localhost:5000" +:+ "/" +:+ "foo") "1").
Proof. split; apply Parse_docker_hub_repository; reflexivity. Defined.

Lemma Parse_registry_domain_witness :
  Parse ("ghcr.io" +:+ "/" +:+ "homebrew/core/envoy" +:+ ":" +:+ "1.18.3-1") =
    Ok (mkReference "ghcr.io" "homebrew/core/envoy" "1.18.3-1").
Proof. apply Parse_registry_domain; [reflexivity | reflexivity | left; reflexivity]. Defined.

(** ** Destination paths of Extract (car.go) *)

(** The [for ; stripComponents > 0 && i < len(name); i++] loop of
    [newDestinationPath]: the components still to strip and [name[i:]].
    [os.IsPathSeparator] is the Unix one, ['/']. *)
Fixpoint stripLoop (stripComponents : Z) (name : string) : Z * string :=
  if Z.ltb 0 stripComponents then
    match name with
    | EmptyString => (stripComponents, name)
    | String c rest =>
        stripLoop (if Ascii.eqb c "/" then stripComponents - 1 else stripComponents) rest
    end
  else (stripComponents, name).

(** [newDestinationPath]; [filepath.Join] on Unix is [path.Join]. *)
Definition newDestinationPath (name directory : string) (stripComponents : Z) : string * bool :=
  let '(remaining, rest) := stripLoop stripComponents name in
  if Z.ltb 0 remaining then (EmptyString, false)
  else (pathJoin directory rest, true).

(** [strings.Count(s, string(c))] *)
Fixpoint countByte (s : string) (c : ascii) : nat :=
  match s with
  | EmptyString => 0
  | String d s' => (if Ascii.eqb d c then 1 else 0) + countByte s' c
  end.

Lemma stripLoop_done (n : Z) (name : string) : n <= 0 -> stripLoop n name = (n, name).
Proof.
  intros Hn. destruct name; cbn [stripLoop];
    (replace (Z.ltb 0 n) with false by (symmetry; apply Z.ltb_ge; lia)); reflexivity.
Qed.

Lemma stripLoop_short (name : string) (n : Z) :
  0 < n -> Z.of_nat (countByte name "/") < n ->
  stripLoop n name = (n - Z.of_nat (countByte name "/"), EmptyString).
Proof.
  revert n. induction name as [|c name IH]; intros n Hn Hc.
  - cbn. replace (Z.ltb 0 n) with true by (symmetry; apply Z.ltb_lt; lia). f_equal. lia.
  - cbn [stripLoop countByte]. replace (Z.ltb 0 n) with true by (symmetry; apply Z.ltb_lt; lia).
    cbn [countByte] in Hc. destruct (Ascii.eqb c "/").
    + rewrite IH by lia. f_equal. lia.
    + rewrite IH by lia. f_equal.
Qed.

Lemma stripLoop_enough (name : string) (n : Z) :
  0 < n -> n <= Z.of_nat (countByte name "/") -> fst (stripLoop n name) = 0.
Proof.
  revert n. induction name as [|c name IH]; intros n Hn Hc.
  - cbn in Hc. lia.
  - cbn [stripLoop countByte]. replace (Z.ltb 0 n) with true by (symmetry; apply Z.ltb_lt; lia).
    cbn [countByte] in Hc. destruct (Ascii.eqb c "/").
    + destruct (Z.eq_dec n 1) as [->|Hne].
      * rewrite stripLoop_done by lia. reflexivity.
      * apply IH; lia.
    + apply IH; lia.
Qed.

Lemma stripLoop_split (p suf : string) (n : Z) :
  Z.of_nat (countByte p "/") + 1 = n -> stripLoop n (p +:+ "/" +:+ suf) = (0, suf).
Proof.
  revert n. induction p as [|c p IH]; intros n Hn.
  - cbn in Hn. subst n. rewrite string_app_nil_l. change ("/" +:+ suf) with (String "/" suf).
    cbn [stripLoop Z.ltb Ascii.eqb Bool.eqb]. cbv iota. apply stripLoop_done. lia.
  - cbn [countByte] in Hn. rewrite string_app_cons. cbn [stripLoop].
    replace (Z.ltb 0 n) with true by (symmetry; apply Z.ltb_lt; lia).
    destruct (Ascii.eqb c "/"); apply IH; lia.
Qed.

(** newDestinationPath: with no components to strip ([stripComponents]
    zero or negative) the entry goes to [path.Join(directory, name)]. *)
Theorem newDestinationPath_no_strip (name directory : string) (n : Z) :
  n <= 0 -> newDestinationPath name directory n = (pathJoin directory name, true).
Proof.
  intros Hn. unfold newDestinationPath. rewrite stripLoop_done by exact Hn.
  replace (Z.ltb 0 n) with false by (symmetry; apply Z.ltb_ge; lia). reflexivity.
Qed.

(** newDestinationPath: with [n > 0] components to strip, an entry is
    skipped exactly when its name has fewer than [n] slashes; otherwise,
    writing the name as [p/suffix] where [p] holds [n - 1] slashes, the
    entry goes to [path.Join(directory, suffix)]. *)
Theorem newDestinationPath_strip (directory : string) (n : Z) :
  0 < n ->
  (forall name, snd (newDestinationPath name directory n) = false <->
     Z.of_nat (countByte name "/") < n) /\
  (forall name, Z.of_nat (countByte name "/") < n ->
     newDestinationPath name directory n = (EmptyString, false)) /\
  (forall p suffix, Z.of_nat (countByte p "/") + 1 = n ->
     newDestinationPath (p +:+ "/" +:+ suffix) directory n = (pathJoin directory suffix, true)).
Proof.
  intros Hn. split; [|split].
  - intros name. unfold newDestinationPath.
    destruct (Z_lt_le_dec (Z.of_nat (countByte name "/")) n) as [Hlt|Hge].
    + rewrite stripLoop_short by assumption.
      replace (Z.ltb 0 (n - Z.of_nat (countByte name "/"))) with true
        by (symmetry; apply Z.ltb_lt; lia). split; [intros _; exact Hlt|intros _; reflexivity].
    + pose proof (stripLoop_enough name n Hn Hge) as H0.
      destruct (stripLoop n name) as [remaining rest]. cbn in H0. subst remaining. cbn. split; [discriminate|lia].
  - intros name Hlt. unfold newDestinationPath. rewrite stripLoop_short by assumption.
    replace (Z.ltb 0 (n - Z.of_nat (countByte name "/"))) with true
      by (symmetry; apply Z.ltb_lt; lia). reflexivity.
  - intros p suffix Hp. unfold newDestinationPath. rewrite stripLoop_split by exact Hp. reflexivity.
Qed.

Lemma newDestinationPath_no_strip_witness :
  newDestinationPath "dir/file" "dir" 0 = (pathJoin "dir" "dir/file", true) /\
  pathJoin "dir" "dir/file" = "dir/dir/file".
Proof. split; [apply newDestinationPath_no_strip; lia | vm_compute; reflexivity]. Defined.

Lemma newDestinationPath_strip_witness :
  newDestinationPath ("dir" +:+ "/" +:+ "file") "dir" 1 = (pathJoin "dir" "file", true) /\
  newDestinationPath "dir/file" "dir" 2 = (EmptyString, false).
Proof.
  split.
  - apply (proj2 (proj2 (newDestinationPath_strip "dir" 1 ltac:(lia)))). reflexivity.
  - apply (proj1 (proj2 (newDestinationPath_strip "dir" 2 ltac:(lia)))). vm_compute. reflexivity.
Defined.

(** ** The pattern matcher (patternmatcher.go) *)

Lemma list_fmap_map_eq {A B} (f : A -> B) (l : list A) : f <$> l = map f l.
Proof. induction l as [|a l IH]; [reflexivity|]. cbn. rewrite <- IH. reflexivity. Qed.

Lemma New_fold_lookup (pats : list string) (m : gmap string bool) (p : string) :
  fold_left (fun m p => <[p := false]> m) pats m !! p =
  if bool_decide (p ∈ pats) then Some false else m !! p.
Proof.
  revert m. induction pats as [|q pats IH]; intros m.
  - rewrite bool_decide_false by apply not_elem_of_nil. reflexivity.
  - cbn [fold_left]. rewrite IH.
    destruct (String.eq_dec q p) as [->|Hqp].
    + rewrite (bool_decide_true (p ∈ p :: pats)) by (apply elem_of_cons; left; reflexivity).
      destruct (bool_decide (p ∈ pats)); [reflexivity|]. apply lookup_insert_eq.
    + rewrite lookup_insert_ne by exact Hqp.
      assert (E : bool_decide (p ∈ q :: pats) = bool_decide (p ∈ pats)).
      { apply bool_decide_ext. rewrite elem_of_cons. split; [intros [H|H]; [congruence|exact H]|intros H; right; exact H]. }
      rewrite E. reflexivity.
Qed.

(** patternmatcher.New: the matcher holds exactly the given patterns
    (duplicates collapse), each not yet matched, and the fast_read flag. *)
Theorem New_patterns (pats : list string) (fr : bool) :
  fastRead (New pats fr) = fr /\
  (forall p, patterns (New pats fr) !! p = if bool_decide (p ∈ pats) then Some false else None) /\
  (size (patterns (New pats fr)) = 0%nat <-> pats = []).
Proof.
  split; [reflexivity|].
  assert (Hl : forall p, patterns (New pats fr) !! p =
                  if bool_decide (p ∈ pats) then Some false else None).
  { intros p. unfold New. cbn [patterns]. rewrite New_fold_lookup. reflexivity. }
  split; [exact Hl|].
  rewrite map_size_empty_iff. split.
  - intros Hemp. destruct pats as [|q pats]; [reflexivity|].
    specialize (Hl q). rewrite Hemp, lookup_empty in Hl.
    rewrite bool_decide_true in Hl by (apply elem_of_cons; left; reflexivity). discriminate.
  - intros ->. reflexivity.
Qed.

Section PatternMatcherProps.
Variable filepathMatch : string -> string -> bool.
Variable iterate : gmap string bool -> list (string * bool).
Hypothesis iterate_perm : forall m, iterate m ≡ₚ map_to_list m.

Lemma In_iterate (m : gmap string bool) (p : string) (b : bool) :
  In (p, b) (iterate m) <-> m !! p = Some b.
Proof.
  split.
  - intros H. apply elem_of_map_to_list. apply list_elem_of_In.
    apply (Permutation_in _ (iterate_perm m)). exact H.
  - intros H. apply (Permutation_in _ (Permutation_sym (iterate_perm m))).
    apply list_elem_of_In. apply elem_of_map_to_list. exact H.
Qed.

Lemma NoDup_map_fst_filter {A B} (f : A * B -> bool) (l : list (A * B)) :
  List.NoDup (map fst l) -> List.NoDup (map fst (List.filter f l)).
Proof.
  induction l as [|a l IH]; intros Hnd; [constructor|].
  cbn [map] in Hnd. apply NoDup_cons_iff in Hnd as [Hnot Hnd].
  cbn [List.filter]. destruct (f a); [|apply IH, Hnd].
  cbn [map]. constructor; [|apply IH, Hnd].
  intros Hin. apply Hnot. apply in_map_iff in Hin as [x [Hx Hin]].
  apply filter_In in Hin as [Hin _]. rewrite <- Hx. apply in_map, Hin.
Qed.

(** MatchesPattern: with no patterns every name matches and nothing
    changes; otherwise a name matches exactly when some pattern matches it
    ([filepath.Match]), and then one such pattern is marked matched and
    nothing else changes; a name that does not match leaves the matcher
    as it was. *)
Theorem MatchesPattern_spec (pm : patternMatcher) (name : string) :
  (size (patterns pm) = 0%nat -> MatchesPattern filepathMatch iterate pm name = (true, pm)) /\
  (size (patterns pm) <> 0%nat ->
     (fst (MatchesPattern filepathMatch iterate pm name) = true <->
        exists p b, patterns pm !! p = Some b /\ filepathMatch p name = true) /\
     (fst (MatchesPattern filepathMatch iterate pm name) = false ->
        snd (MatchesPattern filepathMatch iterate pm name) = pm) /\
     (fst (MatchesPattern filepathMatch iterate pm name) = true ->
        exists p, filepathMatch p name = true /\ is_Some (patterns pm !! p) /\
          snd (MatchesPattern filepathMatch iterate pm name) =
            mkPatternMatcher (<[p := true]> (patterns pm)) (fastRead pm))).
Proof.
  split.
  - intros H0. unfold MatchesPattern. rewrite H0. reflexivity.
  - intros H0. unfold MatchesPattern. apply Nat.eqb_neq in H0. rewrite H0.
    destruct (find (fun pb => filepathMatch (fst pb) name) (iterate (patterns pm)))
      as [[p b]|] eqn:Hf.
    + apply find_some in Hf as [Hin Hm]. cbn in Hm. apply In_iterate in Hin.
      cbn [fst snd]. split; [|split].
      * split; [intros _; exists p, b; split; assumption|reflexivity].
      * discriminate.
      * intros _. exists p. split; [exact Hm|]. split; [exists b; exact Hin|reflexivity].
    + cbn [fst snd]. split; [|split].
      * split; [discriminate|]. intros [p [b [Hp Hm]]].
        apply In_iterate in Hp. pose proof (find_none _ _ Hf _ Hp) as Hc. cbn in Hc.
        congruence.
      * intros _. reflexivity.
      * discriminate.
Qed.

(** Unmatched lists each pattern whose flag is still unset, once. *)
Theorem Unmatched_spec (pm : patternMatcher) :
  NoDup (Unmatched iterate pm) /\
  (forall p, In p (Unmatched iterate pm) <-> patterns pm !! p = Some false).
Proof.
  split.
  - unfold Unmatched. apply NoDup_ListNoDup, NoDup_map_fst_filter.
    apply (Permutation_NoDup (Permutation_map fst (Permutation_sym (iterate_perm (patterns pm))))).
    rewrite <- list_fmap_map_eq. apply NoDup_ListNoDup, NoDup_fst_map_to_list.
  - intros p. unfold Unmatched. rewrite in_map_iff. split.
    + intros [[q b] [Hq Hin]]. cbn in Hq. subst q.
      apply filter_In in Hin as [Hin Hb]. cbn in Hb. apply negb_true_iff in Hb. subst b.
      apply In_iterate, Hin.
    + intros Hp. exists (p, false). split; [reflexivity|].
      apply filter_In. split; [apply In_iterate, Hp|reflexivity].
Qed.
End PatternMatcherProps.

Lemma MatchesPattern_spec_witness :
  fst (MatchesPattern String.eqb map_to_list
         (New ["robots"] true) "robots") = true.
Proof.
  apply (proj2 (proj1 (proj2 (MatchesPattern_spec String.eqb map_to_list
    (fun m => Permutation_refl _) (New ["robots"] true) "robots") ltac:(vm_compute; discriminate)))).
  exists "robots", false. split; [vm_compute; reflexivity|reflexivity].
Defined.

Lemma Unmatched_spec_witness :
  NoDup (Unmatched map_to_list (New ["robots"; "robots"; "humans"] false)).
Proof.
  exact (proj1 (Unmatched_spec map_to_list (fun m => Permutation_refl _)
    (New ["robots"; "robots"; "humans"] false))).
Defined.

(** ** The [do] driver (car.go) *)

(** [q] is [pm] after some matching: same fast_read flag, same patterns,
    and every pattern matched in [pm] still matched. *)
Definition grows (pm q : patternMatcher) : Prop :=
  fastRead q = fastRead pm /\
  (forall p, is_Some (patterns pm !! p) <-> is_Some (patterns q !! p)) /\
  (forall p, patterns pm !! p = Some true -> patterns q !! p = Some true).

Lemma grows_refl (pm : patternMatcher) : grows pm pm.
Proof. split; [reflexivity|]. split; [reflexivity|]. auto. Qed.

Lemma grows_trans (a b c : patternMatcher) : grows a b -> grows b c -> grows a c.
Proof.
  intros [Fab [Kab Tab]] [Fbc [Kbc Tbc]]. split; [congruence|]. split.
  - intros p. rewrite Kab. apply Kbc.
  - intros p H. apply Tbc, Tab, H.
Qed.

Section DriverProps.
Variable filepathMatch : string -> string -> bool.
Variable iterate : gmap string bool -> list (string * bool).
Variable Body : Type.
Variable getImageLayers : result (list FilesystemLayer).
Variable layerEntries : FilesystemLayer -> list (call Body) * option string.
Variable wrapCallbackError : call Body -> string -> string.
Variable action : call Body -> option string.
Variable createdByPattern : option (string -> bool).
Variable filePatterns : list string.
Variable fastReadFlag : bool.
Hypothesis iterate_perm : forall m, iterate m ≡ₚ map_to_list m.

Local Notation rfD := (rf filepathMatch iterate Body action).
Local Notation entries := (readEntries filepathMatch iterate Body wrapCallbackError action).
Local Notation layerRead := (readLayer filepathMatch iterate Body layerEntries wrapCallbackError action).
Local Notation loopD := (layersLoop filepathMatch iterate Body layerEntries wrapCallbackError action).
Local Notation runD := (run filepathMatch iterate Body getImageLayers layerEntries
                          wrapCallbackError action createdByPattern filePatterns fastReadFlag).

(** The action applied to an entry, its name stripped of a leading slash. *)
Definition actOn (c : call Body) : option string :=
  action (mkCall (stripLeadingSlash (c_name c)) (c_size c) (c_mode c) (c_modTime c) (c_reader c)).

(** The first error of the action over the entries, wrapped as
    [ReadFilesystemLayer] wraps it, else the error ending the stream. *)
Fixpoint firstActionError (cs : list (call Body)) (tail : option string) : option string :=
  match cs with
  | [] => tail
  | c :: rest =>
      match actOn c with
      | Some e => Some (wrapCallbackError c e)
      | None => firstActionError rest tail
      end
  end.

Lemma MatchesPattern_grows (pm : patternMatcher) (name : string) :
  grows pm (snd (MatchesPattern filepathMatch iterate pm name)).
Proof.
  unfold MatchesPattern. destruct (Nat.eqb (size (patterns pm)) 0); [apply grows_refl|].
  destruct (find (fun pb => filepathMatch (fst pb) name) (iterate (patterns pm)))
    as [[p b]|] eqn:Hf; [|apply grows_refl].
  apply find_some in Hf as [Hin _].
  assert (Hp : patterns pm !! p = Some b).
  { apply elem_of_map_to_list. apply list_elem_of_In.
    apply (Permutation_in _ (iterate_perm _)). exact Hin. }
  cbn [snd]. split; [reflexivity|]. split.
  - intros q. cbn [patterns]. destruct (String.eq_dec p q) as [->|Hne].
    + rewrite lookup_insert_eq, Hp. split; intros _; eexists; reflexivity.
    + rewrite lookup_insert_ne by exact Hne. reflexivity.
  - intros q Hq. cbn [patterns]. destruct (String.eq_dec p q) as [->|Hne].
    + apply lookup_insert_eq.
    + rewrite lookup_insert_ne by exact Hne. exact Hq.
Qed.

Lemma rf_grows (pm : patternMatcher) (c : call Body) : grows pm (fst (rfD pm c)).
Proof.
  unfold rf. pose proof (MatchesPattern_grows pm (stripLeadingSlash (c_name c))) as G.
  destruct (MatchesPattern filepathMatch iterate pm (stripLeadingSlash (c_name c))) as [ok pm'].
  destruct (negb ok); exact G.
Qed.

Lemma readEntries_grows (pm : patternMatcher) (cs : list (call Body)) (tail : option string) :
  grows pm (fst (entries pm cs tail)).
Proof.
  revert pm. induction cs as [|c cs IH]; intros pm; [apply grows_refl|].
  cbn [readEntries]. pose proof (rf_grows pm c) as G.
  destruct (rfD pm c) as [pm' err]. cbn [fst] in G.
  destruct err; [exact G|]. eapply grows_trans; [exact G|apply IH].
Qed.

Lemma readLayer_grows (pm : patternMatcher) (l : FilesystemLayer) :
  grows pm (fst (layerRead pm l)).
Proof. unfold readLayer. destruct (layerEntries l). apply readEntries_grows. Qed.

Lemma layersLoop_grows (layers : list FilesystemLayer) (pm pm' : patternMatcher)
    (read : list (FilesystemLayer * patternMatcher)) (r : option string) :
  loopD pm layers = (pm', read, r) ->
  (forall i l q, read !! i = Some (l, q) -> grows pm q) /\
  (forall i j l q l' q', read !! i = Some (l, q) -> read !! j = Some (l', q') ->
     (i <= j)%nat -> grows q q').
Proof.
  revert pm pm' read r. induction layers as [|l rest IH]; intros pm pm' read r Hloop.
  - cbn in Hloop. injection Hloop as <- <- <-. split; intros i; discriminate.
  - cbn [layersLoop] in Hloop. pose proof (readLayer_grows pm l) as G.
    destruct (layerRead pm l) as [pm1 err]. cbn [fst] in G.
    assert (Hone : forall i j l0 q l' q',
               [(l, pm1)] !! i = Some (l0, q) -> [(l, pm1)] !! j = Some (l', q') ->
               (i <= j)%nat -> grows q q').
    { intros [|i] [|j] l0 q l' q' Hi Hj _; try discriminate.
      cbn in Hi, Hj. injection Hi as _ <-. injection Hj as _ <-. apply grows_refl. }
    destruct err as [e|].
    + injection Hloop as <- <- <-. split; [|exact Hone].
      intros [|i] l0 q Hi; [|discriminate]. cbn in Hi. injection Hi as _ <-. exact G.
    + destruct (negb (StillMatching iterate pm1)).
      * injection Hloop as <- <- <-. split; [|exact Hone].
        intros [|i] l0 q Hi; [|discriminate]. cbn in Hi. injection Hi as _ <-. exact G.
      * destruct (loopD pm1 rest) as [[pm'' read'] r'] eqn:Hrest.
        injection Hloop as <- <- <-. destruct (IH _ _ _ _ Hrest) as [Hfrom Hchain].
        split.
        -- intros [|i] l0 q Hi; cbn in Hi.
           ++ injection Hi as _ <-. exact G.
           ++ eapply grows_trans; [exact G|exact (Hfrom i l0 q Hi)].
        -- intros [|i] [|j] l0 q l' q' Hi Hj Hij; cbn in Hi, Hj.
           ++ injection Hi as _ <-. injection Hj as _ <-. apply grows_refl.
           ++ injection Hi as _ <-. exact (Hfrom j l' q' Hj).
           ++ lia.
           ++ exact (Hchain i j l0 q l' q' Hi Hj ltac:(lia)).
Qed.

Lemma readEntries_pass_through (pm : patternMatcher) (cs : list (call Body))
    (tail : option string) :
  size (patterns pm) = 0%nat -> entries pm cs tail = (pm, firstActionError cs tail).
Proof.
  intros H0. induction cs as [|c cs IH]; [reflexivity|].
  cbn [readEntries firstActionError]. unfold rf, actOn.
  unfold MatchesPattern at 1. rewrite H0. cbn [Nat.eqb negb].
  destruct (action _); [reflexivity|]. exact IH.
Qed.

(** The driver with no file patterns: within a layer every entry is handed
    to the action (named without its leading slash), in order, until the
    action's first error, and the matcher never changes. *)
Theorem readEntries_no_patterns (pm : patternMatcher) (cs : list (call Body))
    (tail : option string) :
  size (patterns pm) = 0%nat -> entries pm cs tail = (pm, firstActionError cs tail).
Proof. apply readEntries_pass_through. Qed.

Lemma layersLoop_no_patterns (layers : list FilesystemLayer) (pm pm' : patternMatcher)
    (read : list (FilesystemLayer * patternMatcher)) (r : option string) :
  size (patterns pm) = 0%nat -> loopD pm layers = (pm', read, r) ->
  pm' = pm /\ (forall x, In x read -> snd x = pm) /\
  (r = None -> map fst read = layers) /\
  (forall e, r = Some e -> exists l, In l layers /\ snd (layerRead pm l) = Some e).
Proof.
  intros H0. revert pm' read r. induction layers as [|l rest IH]; intros pm' read r Hloop.
  - cbn in Hloop. injection Hloop as <- <- <-. split; [reflexivity|].
    split; [intros x []|]. split; [reflexivity|discriminate].
  - cbn [layersLoop] in Hloop.
    assert (Hrl : fst (layerRead pm l) = pm).
    { unfold readLayer. destruct (layerEntries l) as [cs tail].
      rewrite readEntries_pass_through by exact H0. reflexivity. }
    destruct (layerRead pm l) as [pm1 err] eqn:Hread. cbn [fst] in Hrl. subst pm1.
    destruct err as [e|].
    + injection Hloop as <- <- <-. split; [reflexivity|].
      split; [intros x [<-|[]]; reflexivity|]. split; [discriminate|].
      intros e' He'. injection He' as <-. exists l. split; [left; reflexivity|].
      rewrite Hread. reflexivity.
    + assert (Hsm : StillMatching iterate pm = true).
      { unfold StillMatching. rewrite H0. apply orb_true_iff. left. apply orb_true_r. }
      rewrite Hsm in Hloop. cbn [negb] in Hloop.
      destruct (loopD pm rest) as [[pm'' read'] r'] eqn:Hrest.
      injection Hloop as <- <- <-. destruct (IH _ _ _ eq_refl) as [-> [Hall [Hnone Herr]]].
      split; [reflexivity|]. split.
      * intros x [<-|Hx]; [reflexivity|exact (Hall x Hx)].
      * split; [intros Hr; cbn; f_equal; exact (Hnone Hr)|].
        intros e He. destruct (Herr e He) as [l' [Hin Hl']]. exists l'. split; [right; exact Hin|exact Hl'].
Qed.

(** The driver with no file patterns never reports a pattern as not
    found: it reads every layer kept by the created-by filter, with the
    matcher left as created, and fails only with the error of reading one
    of those layers. *)
Theorem run_no_patterns (layers : list FilesystemLayer) :
  filePatterns = [] -> getImageLayers = Ok layers ->
  (forall x, In x (fst runD) -> snd x = New [] fastReadFlag) /\
  (snd runD = None -> map fst (fst runD) = List.filter (createdByFilter createdByPattern) layers) /\
  (forall e, snd runD = Some e ->
     exists l, In l (List.filter (createdByFilter createdByPattern) layers) /\
       snd (layerRead (New [] fastReadFlag) l) = Some e).
Proof.
  intros Hp Hl. unfold run. rewrite Hl, Hp.
  destruct (loopD (New [] fastReadFlag) (List.filter (createdByFilter createdByPattern) layers))
    as [[pm' read] r] eqn:Hloop.
  destruct (layersLoop_no_patterns _ (New [] fastReadFlag) _ _ _ eq_refl Hloop) as [-> [Hall [Hnone Herr]]].
  assert (Hun : Unmatched iterate (New [] fastReadFlag) = []).
  { unfold Unmatched. cbn [New patterns fold_left].
    pose proof (iterate_perm ∅) as Hperm. rewrite map_to_list_empty in Hperm.
    apply Permutation_sym, Permutation_nil in Hperm. rewrite Hperm. reflexivity. }
  destruct r as [e|].
  - cbn [fst snd]. split; [exact Hall|]. split; [discriminate|]. exact Herr.
  - rewrite Hun. cbn [length Nat.ltb fst snd]. split; [exact Hall|].
    split; [intros _; exact (Hnone eq_refl)|discriminate].
Qed.

(** The matcher along a run: every matcher after a layer holds exactly the
    file patterns and the fast_read flag, and a pattern once matched stays
    matched in every later layer. *)
Theorem run_pattern_flags_monotone (layers : list FilesystemLayer) :
  getImageLayers = Ok layers ->
  (forall l q, In (l, q) (fst runD) ->
     fastRead q = fastReadFlag /\ (forall p, is_Some (patterns q !! p) <-> p ∈ filePatterns)) /\
  (forall i j l q l' q', fst runD !! i = Some (l, q) -> fst runD !! j = Some (l', q') ->
     (i <= j)%nat -> forall p, patterns q !! p = Some true -> patterns q' !! p = Some true).
Proof.
  intros Hl.
  destruct (loopD (New filePatterns fastReadFlag) (List.filter (createdByFilter createdByPattern) layers))
    as [[pm' read] r] eqn:Hloop.
  destruct (layersLoop_grows _ _ _ _ _ Hloop) as [Hfrom Hchain].
  assert (Hfst : fst runD = read).
  { unfold run. rewrite Hl. cbv zeta. rewrite Hloop.
    destruct r; [reflexivity|]. destruct (Nat.ltb _ _); reflexivity. }
  rewrite Hfst. split.
  - intros l q Hin. apply list_elem_of_In, list_elem_of_lookup_1 in Hin as [i Hi].
    destruct (Hfrom i l q Hi) as [Hf [Hk _]]. split; [exact Hf|].
    intros p. rewrite <- Hk. unfold New. cbn [patterns]. rewrite New_fold_lookup.
    destruct (bool_decide_reflect (p ∈ filePatterns)) as [H|H].
    + split; [intros _; exact H|intros _; eexists; reflexivity].
    + split; [intros [? E]; discriminate|intros H'; contradiction].
  - intros i j l q l' q' Hi Hj Hij p Hp. exact (proj2 (proj2 (Hchain i j l q l' q' Hi Hj Hij)) p Hp).
Qed.

(** Without fast_read the driver reads every layer kept by the created-by
    filter, unless reading one fails. *)
Theorem run_reads_all_layers_without_fast_read (layers : list FilesystemLayer) :
  fastReadFlag = false -> getImageLayers = Ok layers ->
  forall pm' read,
  loopD (New filePatterns fastReadFlag) (List.filter (createdByFilter createdByPattern) layers)
    = (pm', read, None) ->
  map fst read = List.filter (createdByFilter createdByPattern) layers /\ fst runD = read.
Proof.
  intros Hf Hl pm' read Hloop.
  destruct (layersLoop_grows _ _ _ _ _ Hloop) as [Hfrom _].
  destruct (layersLoop_trace filepathMatch iterate Body layerEntries wrapCallbackError action
              _ _ _ _ _ Hloop) as [_ [_ Hall]].
  split.
  - apply Hall; [reflexivity|]. intros i l q Hi. destruct (Hfrom i l q Hi) as [Hfq _].
    unfold StillMatching. rewrite Hfq, Hf. reflexivity.
  - unfold run. rewrite Hl. cbv zeta. rewrite Hloop. destruct (Nat.ltb _ _); reflexivity.
Qed.
End DriverProps.

(** Entries of a small layer: a shell and a password file. *)
Definition demoEntries : list (call unit) :=
  [mkCall "/bin/sh" 1 493 0 (BodyReader tt); mkCall "/etc/passwd" 2 420 0 (BodyReader tt)].

(** An action that refuses the password file. *)
Definition refusePasswd (c : call unit) : option string :=
  if String.eqb (c_name c) "etc/passwd" then Some "denied" else None.

Lemma readEntries_no_patterns_witness :
  readEntries String.eqb map_to_list unit (fun _ e => e) refusePasswd (New [] true) demoEntries None =
  (New [] true, Some "denied").
Proof.
  rewrite (readEntries_no_patterns String.eqb map_to_list unit (fun _ e => e) refusePasswd
             (New [] true) demoEntries None) by (vm_compute; reflexivity).
  vm_compute. reflexivity.
Defined.

Lemma run_no_patterns_witness :
  map fst (fst (run String.eqb map_to_list unit (Ok [plainLayer; plainLayer]) (fun _ => (demoEntries, None))
    (fun _ e => e) (fun _ => None) None [] true)) = [plainLayer; plainLayer].
Proof.
  apply (proj1 (proj2 (run_no_patterns String.eqb map_to_list unit (Ok [plainLayer; plainLayer])
    (fun _ => (demoEntries, None)) (fun _ e => e) (fun _ => None) None [] true
    (fun m => Permutation_refl (map_to_list m)) [plainLayer; plainLayer] eq_refl eq_refl))).
  vm_compute. reflexivity.
Defined.

Lemma run_pattern_flags_monotone_witness :
  Forall (fun x => fastRead (snd x) = false /\ is_Some (patterns (snd x) !! "robots"))
    (fst (run String.eqb map_to_list unit (Ok [plainLayer; plainLayer]) (fun _ => (demoEntries, None))
    (fun _ e => e) (fun _ => None) None ["bin/sh"; "etc/passwd"; "robots"] false)).
Proof.
  apply Forall_forall. intros [l q] Hin.
  destruct (proj1 (run_pattern_flags_monotone String.eqb map_to_list unit (Ok [plainLayer; plainLayer])
    (fun _ => (demoEntries, None)) (fun _ e => e) (fun _ => None) None ["bin/sh"; "etc/passwd"; "robots"] false
    (fun m => Permutation_refl (map_to_list m)) [plainLayer; plainLayer] eq_refl) l q
    ltac:(apply list_elem_of_In; exact Hin)) as [Hf Hk].
  split; [exact Hf|]. apply Hk. apply elem_of_cons. right. apply elem_of_cons. right. apply elem_of_cons. left. reflexivity.
Defined.

Lemma run_reads_all_layers_without_fast_read_witness :
  map fst (fst (run String.eqb map_to_list unit (Ok [plainLayer; plainLayer]) (fun _ => (demoEntries, None))
    (fun _ e => e) (fun _ => None) None ["bin/sh"] false)) = [plainLayer; plainLayer].
Proof.
  assert (Hloop : layersLoop String.eqb map_to_list unit (fun _ => (demoEntries, None)) (fun _ e => e)
       (fun _ => None) (New ["bin/sh"] false) (List.filter (createdByFilter None) [plainLayer; plainLayer])
     = (fst (fst (layersLoop String.eqb map_to_list unit (fun _ => (demoEntries, None)) (fun _ e => e)
       (fun _ => None) (New ["bin/sh"] false) (List.filter (createdByFilter None) [plainLayer; plainLayer]))), snd (fst (layersLoop String.eqb map_to_list unit (fun _ => (demoEntries, None)) (fun _ e => e)
       (fun _ => None) (New ["bin/sh"] false) (List.filter (createdByFilter None) [plainLayer; plainLayer]))), None)).
  { vm_compute. reflexivity. }
  destruct (run_reads_all_layers_without_fast_read String.eqb map_to_list unit (Ok [plainLayer; plainLayer])
    (fun _ => (demoEntries, None)) (fun _ e => e) (fun _ => None) None ["bin/sh"] false
    (fun m => Permutation_refl (map_to_list m)) [plainLayer; plainLayer] eq_refl eq_refl _ _ Hloop) as [H1 H2].
  rewrite H2, H1. vm_compute. reflexivity.
Defined.

(** ** The registry client (registry.go, the version built on [internal.Image]) *)

Definition mediaTypeOCIImageConfig : string := "application/vnd.oci.image.config.v1+json".
Definition mediaTypeOCIImageIndex : string := "application/vnd.oci.image.index.v1+json".
Definition mediaTypeDockerContainerImage : string := "application/vnd.docker.container.image.v1+json".
Definition mediaTypeDockerManifest : string := "application/vnd.docker.distribution.manifest.v2+json".
Definition mediaTypeDockerManifestList : string :=
  "application/vnd.docker.distribution.manifest.list.v2+json".
Definition mediaTypeUnknownImageConfig : string := "application/vnd.unknown.config.v1+json".
Definition acceptImageConfigV1 : string :=
  mediaTypeOCIImageConfig +:+ "," +:+ mediaTypeDockerContainerImage +:+ "," +:+ mediaTypeUnknownImageConfig.
Definition acceptImageIndexV1 : string := mediaTypeOCIImageIndex +:+ "," +:+ mediaTypeDockerManifestList.
Definition acceptImageManifestV1 : string := mediaTypeOCIImageManifest +:+ "," +:+ mediaTypeDockerManifest.

Module Registry.

(** The [http.RoundTripper] chosen by [httpClientTransport]. *)
Inductive roundTripper :=
| DockerRoundTripper (path : string)   (* docker.NewRoundTripper(path) *)
| GithubRoundTripper                   (* github.NewRoundTripper() *)
| ContextTransport.                    (* httpclient.TransportFromContext(ctx) *)

Definition httpClientTransport (host path : string) : roundTripper :=
  if String.eqb host "index.docker.io" then DockerRoundTripper path
  else if String.eqb host "ghcr.io" then GithubRoundTripper
  else ContextTransport.

Record registry := mkRegistry {
  baseURL : string;
  transport : roundTripper
}.

Definition New (host path : string) : registry :=
  let host := if String.eqb host EmptyString || String.eqb host "docker.io" then "index.docker.io" else host in
  let path := if negb (contains path "/") then pathJoin "library" path else path in
  mkRegistry ("https://" +:+ host +:+ "/v2/" +:+ path) (httpClientTransport host path).

(** [fmt.Sprintf("%v", p)] of a [platformV1]: its fields between braces. *)
Definition showPlatform (p : platformV1) : string :=
  "{" +:+ p_Architecture p +:+ " " +:+ p_OS p +:+ " " +:+ p_OSVersion p +:+ "}".

(** [manifest.URL = url] *)
Definition setURL (url : string) (m : imageManifestV1) : imageManifestV1 :=
  mkManifest url (m_Config m) (m_Layers m).

Section Client.
Variable Body : Type.
(** [r.httpClient.Get(ctx, url, header)] with the [Accept] values: the
    body and the media type of the response. *)
Variable httpGet : string -> list string -> result (Body * string).
(** [io.ReadAll(body)] *)
Variable readAll : Body -> result string.
(** [json.Unmarshal] into an [imageIndexV1] (its [Manifests]) and into an
    [imageManifestV1]. *)
Variable unmarshalIndex : string -> result (list imageManifestReferenceV1).
Variable unmarshalManifest : string -> result imageManifestV1.
(** [r.httpClient.GetJSON(ctx, url, mediaType, &v)] into a manifest and
    into a config. *)
Variable getJSONManifest : string -> string -> result imageManifestV1.
Variable getJSONConfig : string -> string -> result imageConfigV1.
(** [fmt.Sprintf("%v", image)] of an [*imageManifestV1]. *)
Variable showImage : imageManifestV1 -> string.
Variable r : registry.

Fixpoint getMultiPlatformManifests (refs : list imageManifestReferenceV1) (platform : string)
  : result (list imageManifestV1) :=
  match refs with
  | [] => Ok []
  | ref :: rest =>
      let p := pathJoin (p_OS (r_Platform ref)) (p_Architecture (r_Platform ref)) in
      if negb (String.eqb p platform) then getMultiPlatformManifests rest platform
      else
        let url := baseURL r +:+ "/manifests/" +:+ r_Digest ref in
        match getJSONManifest url (r_MediaType ref) with
        | Err e => Err ("error getting image ref for platform " +:+ showPlatform (r_Platform ref) +:+ ": " +:+ e)
        | Ok manifest =>
            match getMultiPlatformManifests rest platform with
            | Err e => Err e
            | Ok manifests => Ok (setURL url manifest :: manifests)
            end
        end
  end.

(** The [%w] of a nil error prints as [%!w(<nil>)]. *)
Definition getImageManifests (tag platform : string) : result (list imageManifestV1) :=
  let url := baseURL r +:+ "/manifests/" +:+ tag in
  match httpGet url [acceptImageIndexV1; acceptImageManifestV1] with
  | Err e => Err e
  | Ok (body, mediaType) =>
      match readAll body with
      | Err e => Err e
      | Ok b =>
          if contains acceptImageIndexV1 mediaType then
            match unmarshalIndex b with
            | Err e => Err ("error unmarshalling image index from " +:+ url +:+ ": " +:+ e)
            | Ok index => getMultiPlatformManifests index platform
            end
          else if contains acceptImageManifestV1 mediaType then
            match unmarshalManifest b with
            | Err e => Err ("error unmarshalling image manifest from " +:+ url +:+ ": " +:+ e)
            | Ok manifest => Ok [setURL url manifest]
            end
          else Err ("unknown mediaType " +:+ mediaType +:+ " from " +:+ url +:+ ": %!w(<nil>)")
      end
  end.

Fixpoint getImageConfigs (images : list imageManifestV1) : result (list imageConfigV1) :=
  match images with
  | [] => Ok []
  | image :: rest =>
      if negb (contains acceptImageConfigV1 (d_MediaType (m_Config image))) then
        Err ("invalid config media type in image " +:+ showImage image)
      else
        let url := baseURL r +:+ "/blobs/" +:+ d_Digest (m_Config image) in
        match getJSONConfig url (d_MediaType (m_Config image)) with
        | Err e => Err ("error getting image config from " +:+ url +:+ ": " +:+ e)
        | Ok config =>
            match getImageConfigs rest with
            | Err e => Err e
            | Ok configs => Ok (config :: configs)
            end
        end
  end.

(** The [for i := range images] loop of [GetImage], [res] being its
    [result]; [None] is a panic ([configs[i]] out of range, or [newImage]). *)
Fixpoint selectImages (platform : string) (images : list imageManifestV1) (configs : list imageConfigV1)
    (lastOSVersion : string) (res : list Image) : option (list Image) :=
  match images with
  | [] => Some res
  | image :: images' =>
      match configs with
      | [] => None
      | config :: configs' =>
          let p := pathJoin (OS config) (Architecture config) in
          if String.eqb platform p && String.leb lastOSVersion (OSVersion config) then
            match newImage (baseURL r) image config with
            | None => None
            | Some img => selectImages platform images' configs' (OSVersion config) (res ++ [img])
            end
          else selectImages platform images' configs' lastOSVersion res
      end
  end.

(** [None] is a panic. *)
Definition GetImage (tag platform : string) : option (result Image) :=
  match getImageManifests tag platform with
  | Err e => Some (Err e)
  | Ok images =>
      if Nat.eqb (length images) 0 then Some (Err ("image tag " +:+ tag +:+ " not found"))
      else
        match getImageConfigs images with
        | Err e => Some (Err e)
        | Ok configs =>
            match selectImages platform images configs EmptyString [] with
            | None => None
            | Some res =>
                match rev res with
                | [] => Some (Err ("image tag " +:+ tag +:+ " not found for platform " +:+ platform))
                | img :: _ => Some (Ok img)
                end
            end
        end
  end.
End Client.

(** [r.String()] *)
Definition String (r : registry) : string := baseURL r.

End Registry.

Lemma string_compare_refl (s : string) : String.compare s s = Eq.
Proof.
  induction s as [|c s IH]; [reflexivity|]. cbn.
  unfold Ascii.compare. rewrite N.compare_refl. exact IH.
Qed.

Lemma string_leb_refl (s : string) : String.leb s s = true.
Proof. unfold String.leb. rewrite string_compare_refl. reflexivity. Qed.

Lemma string_compare_le_trans (a b c : string) :
  String.compare a b <> Gt -> String.compare b c <> Gt -> String.compare a c <> Gt.
Proof.
  revert b c. induction a as [|x a IH]; intros [|y b] [|z c] H1 H2; cbn in *; try congruence.
  unfold Ascii.compare in *.
  destruct (N.compare_spec (N_of_ascii x) (N_of_ascii y)) as [Exy|Lxy|Gxy];
  destruct (N.compare_spec (N_of_ascii y) (N_of_ascii z)) as [Eyz|Lyz|Gyz];
  destruct (N.compare_spec (N_of_ascii x) (N_of_ascii z)) as [Exz|Lxz|Gxz];
  try congruence; try lia.
  apply (IH b c H1 H2).
Qed.

Lemma string_leb_trans (a b c : string) :
  String.leb a b = true -> String.leb b c = true -> String.leb a c = true.
Proof.
  unfold String.leb. intros H1 H2.
  destruct (String.compare a c) eqn:E; [reflexivity|reflexivity|].
  exfalso. apply (string_compare_le_trans a b c).
  - intros E'. rewrite E' in H1. discriminate.
  - intros E'. rewrite E' in H2. discriminate.
  - exact E.
Qed.

Lemma string_leb_false (a b : string) : String.leb a b = false -> String.leb b a = true.
Proof. intros H. destruct (String.leb_total a b) as [H'|H']; congruence. Qed.

(** Docker Hub defaults of the registry client: an empty or [docker.io]
    host means [index.docker.io] reached through the Docker round tripper,
    and a plain image name [n] (no slash, not empty, [.] or [..]) means the
    official image [library/n]. *)
Theorem New_docker_official (host path : string) :
  (host = EmptyString \/ host = "docker.io") -> simpleElem path = true ->
  Registry.New host path =
  Registry.mkRegistry ("https://index.docker.io/v2/library/" +:+ path)
    (Registry.DockerRoundTripper ("library/" +:+ path)).
Proof.
  intros Hh Hp. unfold Registry.New.
  assert (Hc : String.eqb host EmptyString || String.eqb host "docker.io" = true)
    by (destruct Hh as [-> | ->]; reflexivity).
  rewrite Hc.
  assert (Hs : contains path "/" = false).
  { unfold simpleElem in Hp. apply andb_true_iff in Hp as [_ Hp]. apply negb_true_iff, Hp. }
  rewrite Hs. cbn [negb]. rewrite (pathJoin_simple "library" path eq_refl Hp).
  cbv [Registry.httpClientTransport String.append]. cbn. reflexivity.
Qed.

(** Edge cases of the image path without a slash: an empty path and [.]
    both name the repository [library], and [..] names [.]. *)
Theorem New_path_edge_cases (host : string) :
  exists h,
    Registry.New host EmptyString = Registry.mkRegistry ("https://" +:+ h +:+ "/v2/library")
                                      (Registry.httpClientTransport h "library") /\
    Registry.New host "." = Registry.mkRegistry ("https://" +:+ h +:+ "/v2/library")
                              (Registry.httpClientTransport h "library") /\
    Registry.New host ".." = Registry.mkRegistry ("https://" +:+ h +:+ "/v2/.")
                               (Registry.httpClientTransport h ".").
Proof.
  exists (if String.eqb host EmptyString || String.eqb host "docker.io" then "index.docker.io" else host).
  unfold Registry.New. split; [|split]; reflexivity.
Qed.

Section RegistryClientProps.
Variable Body : Type.
Variable httpGet : string -> list string -> result (Body * string).
Variable readAll : Body -> result string.
Variable unmarshalIndex : string -> result (list imageManifestReferenceV1).
Variable unmarshalManifest : string -> result imageManifestV1.
Variable getJSONManifest : string -> string -> result imageManifestV1.
Variable getJSONConfig : string -> string -> result imageConfigV1.
Variable showImage : imageManifestV1 -> string.
Variable r : Registry.registry.

Local Notation multi := (Registry.getMultiPlatformManifests getJSONManifest r).
Local Notation manifests := (Registry.getImageManifests Body httpGet readAll unmarshalIndex
                               unmarshalManifest getJSONManifest r).
Local Notation configsOf := (Registry.getImageConfigs getJSONConfig showImage r).
Local Notation select := (Registry.selectImages r).
Local Notation getImage := (Registry.GetImage Body httpGet readAll unmarshalIndex unmarshalManifest
                              getJSONManifest getJSONConfig showImage r).

(** The platform of an index entry, as [getMultiPlatformManifests] forms it. *)
Definition refPlatform (ref : imageManifestReferenceV1) : string :=
  pathJoin (p_OS (r_Platform ref)) (p_Architecture (r_Platform ref)).

Definition manifestURL (digest : string) : string :=
  Registry.baseURL r +:+ "/manifests/" +:+ digest.

Definition blobURL (digest : string) : string :=
  Registry.baseURL r +:+ "/blobs/" +:+ digest.

Lemma getImageConfigs_Forall2 (images : list imageManifestV1) (configs : list imageConfigV1) :
  configsOf images = Ok configs <->
  Forall2 (fun image config =>
             contains acceptImageConfigV1 (d_MediaType (m_Config image)) = true /\
             getJSONConfig (blobURL (d_Digest (m_Config image))) (d_MediaType (m_Config image)) = Ok config)
          images configs.
Proof.
  revert configs. induction images as [|im rest IH]; intros configs; cbn [Registry.getImageConfigs].
  - split; [intros H; injection H as <-; constructor|intros H; inversion H; reflexivity].
  - destruct (contains acceptImageConfigV1 (d_MediaType (m_Config im))) eqn:Ha; cbn [negb].
    + unfold blobURL. destruct (getJSONConfig _ _) as [c|e] eqn:Hg.
      * destruct (configsOf rest) as [cs|e] eqn:Hr.
        -- split.
           ++ intros H. injection H as <-. constructor; [split; [exact Ha|exact Hg]|]. apply IH. reflexivity.
           ++ intros H. inversion H as [|? ? ? ? [_ Hc] Hrest]; subst.
              unfold blobURL in Hc. rewrite Hg in Hc. injection Hc as <-. apply IH in Hrest. congruence.
        -- split; [discriminate|]. intros H. inversion H as [|? ? ? ? _ Hrest]; subst.
           apply IH in Hrest. congruence.
      * split; [discriminate|]. intros H. inversion H as [|? ? ? ? [_ Hc] _]; subst.
        unfold blobURL in Hc. congruence.
    + split; [discriminate|]. intros H. inversion H as [|? ? ? ? [Hc _] _]; subst. congruence.
Qed.

(** [getImageManifests] chooses by [strings.Contains] on the accepted
    lists: a response with no media type, or an index type, is read as an
    index and resolved for the platform; a manifest type is read as the
    single manifest of the tag, whatever its platform, with the URL it came
    from; any other type is an error whose wrapped error prints as
    [%!w(<nil>)]. *)
Theorem getImageManifests_media_types (tag platform : string) (body : Body) (mediaType b : string) :
  httpGet (manifestURL tag) [acceptImageIndexV1; acceptImageManifestV1] = Ok (body, mediaType) ->
  readAll body = Ok b ->
  ((mediaType = EmptyString \/ mediaType = mediaTypeOCIImageIndex \/ mediaType = mediaTypeDockerManifestList) ->
     manifests tag platform =
     match unmarshalIndex b with
     | Err e => Err ("error unmarshalling image index from " +:+ manifestURL tag +:+ ": " +:+ e)
     | Ok index => multi index platform
     end) /\
  ((mediaType = mediaTypeOCIImageManifest \/ mediaType = mediaTypeDockerManifest) ->
     manifests tag platform =
     match unmarshalManifest b with
     | Err e => Err ("error unmarshalling image manifest from " +:+ manifestURL tag +:+ ": " +:+ e)
     | Ok manifest => Ok [Registry.setURL (manifestURL tag) manifest]
     end) /\
  (contains acceptImageIndexV1 mediaType = false -> contains acceptImageManifestV1 mediaType = false ->
     manifests tag platform =
     Err ("unknown mediaType " +:+ mediaType +:+ " from " +:+ manifestURL tag +:+ ": %!w(<nil>)")).
Proof.
  intros Hget Hread. unfold Registry.getImageManifests. fold (manifestURL tag). rewrite Hget, Hread.
  split; [|split].
  - intros Hm. assert (Hc : contains acceptImageIndexV1 mediaType = true)
      by (destruct Hm as [-> | [-> | ->]]; vm_compute; reflexivity).
    rewrite Hc. reflexivity.
  - intros Hm. assert (Hc : contains acceptImageIndexV1 mediaType = false /\
                            contains acceptImageManifestV1 mediaType = true)
      by (destruct Hm as [-> | ->]; split; vm_compute; reflexivity).
    destruct Hc as [Hi Hm']. rewrite Hi, Hm'. reflexivity.
  - intros Hi Hm. rewrite Hi, Hm. reflexivity.
Qed.

(** [getMultiPlatformManifests] succeeds exactly when every index entry of
    the platform, in order, is fetched from [<base>/manifests/<digest>]
    with its own media type; the result lists those manifests, each with
    that URL.  On failure, the error is that of one such entry, prefixed
    with its platform. *)
Theorem getMultiPlatformManifests_spec (refs : list imageManifestReferenceV1) (platform : string) :
  (forall ms, multi refs platform = Ok ms <->
     Forall2 (fun ref m => exists m', getJSONManifest (manifestURL (r_Digest ref)) (r_MediaType ref) = Ok m' /\
                                      m = Registry.setURL (manifestURL (r_Digest ref)) m')
             (List.filter (fun ref => String.eqb (refPlatform ref) platform) refs) ms) /\
  (forall e, multi refs platform = Err e ->
     exists ref e', In ref refs /\ refPlatform ref = platform /\
       getJSONManifest (manifestURL (r_Digest ref)) (r_MediaType ref) = Err e' /\
       e = "error getting image ref for platform " +:+ Registry.showPlatform (r_Platform ref) +:+ ": " +:+ e').
Proof.
  induction refs as [|ref rest [IHok IHerr]].
  - split; [intros ms; cbn; split; [intros H; injection H as <-; constructor|intros H; inversion H; reflexivity]|].
    intros e H. discriminate.
  - cbn [Registry.getMultiPlatformManifests List.filter]. fold (refPlatform ref).
    destruct (String.eqb (refPlatform ref) platform) eqn:Hp; cbn [negb].
    + apply String.eqb_eq in Hp.
      change (Registry.baseURL r +:+ "/manifests/" +:+ r_Digest ref) with (manifestURL (r_Digest ref)).
      destruct (getJSONManifest (manifestURL (r_Digest ref)) (r_MediaType ref)) as [m'|e'] eqn:Hg.
      * destruct (multi rest platform) as [ms'|e''] eqn:Hr.
        -- split; [|intros e H; discriminate]. intros ms. split.
           ++ intros H. injection H as <-. constructor; [exists m'; split; [exact Hg|reflexivity]|].
              apply IHok. reflexivity.
           ++ intros H. inversion H as [|? ? ? ? [m0 [Hm0 ->]] Hrest]; subst.
              rewrite Hg in Hm0. injection Hm0 as ->. apply IHok in Hrest. congruence.
        -- split.
           ++ intros ms. split; [discriminate|]. intros H.
              inversion H as [|? ? ? ? _ Hrest]; subst. apply IHok in Hrest. congruence.
           ++ intros e H. injection H as <-. destruct (IHerr e'' eq_refl) as [ref0 [e0 [Hin Hrest]]].
              exists ref0, e0. split; [right; exact Hin|exact Hrest].
      * split.
        -- intros ms. split; [discriminate|]. intros H.
           inversion H as [|? ? ? ? [m0 [Hm0 _]] _]; subst. congruence.
        -- intros e H. injection H as <-. exists ref, e'.
           split; [left; reflexivity|]. split; [exact Hp|]. split; [exact Hg|reflexivity].
    + split.
      * exact IHok.
      * intros e H. destruct (IHerr e H) as [ref0 [e0 [Hin Hrest]]].
        exists ref0, e0. split; [right; exact Hin|exact Hrest].
Qed.

(** [getImageConfigs] succeeds exactly when every image's config media
    type is in the accepted list and its config is fetched, in order, from
    [<base>/blobs/<digest>]; the configs line up with the images.  The
    check is [strings.Contains], so a config with no media type passes it. *)
Theorem getImageConfigs_spec (images : list imageManifestV1) :
  (forall configs, configsOf images = Ok configs <->
     Forall2 (fun image config =>
                contains acceptImageConfigV1 (d_MediaType (m_Config image)) = true /\
                getJSONConfig (blobURL (d_Digest (m_Config image))) (d_MediaType (m_Config image)) = Ok config)
             images configs) /\
  (forall configs, configsOf images = Ok configs -> length configs = length images) /\
  contains acceptImageConfigV1 EmptyString = true.
Proof.
  split; [intros configs; apply getImageConfigs_Forall2|]. split; [|reflexivity].
  intros configs H. apply getImageConfigs_Forall2 in H. symmetry. exact (Forall2_length _ _ _ H).
Qed.

Lemma getMultiPlatformManifests_none (refs : list imageManifestReferenceV1) (platform : string) :
  Forall (fun ref => refPlatform ref <> platform) refs -> multi refs platform = Ok [].
Proof.
  induction refs as [|ref rest IH]; intros H; [reflexivity|].
  inversion H as [|? ? Hne Hrest]; subst. cbn [Registry.getMultiPlatformManifests].
  fold (refPlatform ref). destruct (String.eqb_spec (refPlatform ref) platform) as [E|_];
  [contradiction|]. cbn [negb]. exact (IH Hrest).
Qed.

Lemma selectImages_none (platform : string) (images : list imageManifestV1) (configs : list imageConfigV1)
    (last : string) (acc : list Image) :
  length configs = length images ->
  Forall (fun c => pathJoin (OS c) (Architecture c) <> platform) configs ->
  select platform images configs last acc = Some acc.
Proof.
  revert configs. induction images as [|m ims IH]; intros [|c cfs] Hlen Hall; try discriminate; [reflexivity|].
  inversion Hall as [|? ? Hne Hrest]; subst. cbn [Registry.selectImages].
  destruct (String.eqb_spec platform (pathJoin (OS c) (Architecture c))) as [E|_];
  [symmetry in E; contradiction|]. cbn [andb]. apply IH; [cbn in Hlen; lia|exact Hrest].
Qed.

Lemma selectImages_trace (platform : string) (images : list imageManifestV1) (configs : list imageConfigV1)
    (last : string) (acc res : list Image) :
  select platform images configs last acc = Some res ->
  (res = acc /\
   forall j c', (j < length images)%nat -> configs !! j = Some c' ->
     pathJoin (OS c') (Architecture c') = platform -> String.leb last (OSVersion c') = false) \/
  (exists k m c pre img,
     images !! k = Some m /\ configs !! k = Some c /\ pathJoin (OS c) (Architecture c) = platform /\
     String.leb last (OSVersion c) = true /\ newImage (Registry.baseURL r) m c = Some img /\
     res = pre ++ [img] /\
     forall j c', (j < length images)%nat -> configs !! j = Some c' ->
       pathJoin (OS c') (Architecture c') = platform ->
       String.leb (OSVersion c') (OSVersion c) = true /\ ((k < j)%nat -> OSVersion c' <> OSVersion c)).
Proof.
  revert configs last acc. induction images as [|m ims IH]; intros configs last acc H.
  - cbn in H. injection H as <-. left. split; [reflexivity|]. intros j c' Hj. cbn in Hj. lia.
  - destruct configs as [|c cfs]; [discriminate|]. cbn [Registry.selectImages] in H.
    destruct (String.eqb platform (pathJoin (OS c) (Architecture c)) && String.leb last (OSVersion c))
      eqn:Hsel.
    + apply andb_true_iff in Hsel as [Hpl Hle]. apply String.eqb_eq in Hpl.
      destruct (newImage (Registry.baseURL r) m c) as [img|] eqn:Hn; [|discriminate].
      right.
      destruct (IH _ _ _ H) as [[-> Hall] | (k & m' & c' & pre & img' & Hm & Hc & Hp & Hle' & Hn' & -> & Hall)].
      * exists 0%nat, m, c, acc, img. split; [reflexivity|]. split; [reflexivity|].
        split; [symmetry; exact Hpl|]. split; [exact Hle|]. split; [exact Hn|]. split; [reflexivity|].
        intros [|j] c0 Hj Hc0 Hp0.
        -- cbn in Hc0. injection Hc0 as <-. split; [apply string_leb_refl|lia].
        -- cbn in Hj, Hc0. pose proof (Hall j c0 ltac:(lia) Hc0 Hp0) as Hf.
           split; [apply string_leb_false; exact Hf|].
           intros _ E. rewrite E, string_leb_refl in Hf. discriminate.
      * exists (S k), m', c', pre, img'. split; [exact Hm|]. split; [exact Hc|]. split; [exact Hp|].
        split; [exact (string_leb_trans _ _ _ Hle Hle')|]. split; [exact Hn'|]. split; [reflexivity|].
        intros [|j] c0 Hj Hc0 Hp0.
        -- cbn in Hc0. injection Hc0 as <-. split; [exact Hle'|lia].
        -- cbn in Hj, Hc0. destruct (Hall j c0 ltac:(lia) Hc0 Hp0) as [H1 H2].
           split; [exact H1|]. intros Hk. apply H2. lia.
    + destruct (IH _ _ _ H) as [[-> Hall] | (k & m' & c' & pre & img' & Hm & Hc & Hp & Hle' & Hn' & -> & Hall)].
      * left. split; [reflexivity|]. intros [|j] c0 Hj Hc0 Hp0.
        -- cbn in Hc0. injection Hc0 as <-. rewrite Hp0, String.eqb_refl in Hsel. exact Hsel.
        -- cbn in Hj, Hc0. exact (Hall j c0 ltac:(lia) Hc0 Hp0).
      * right. exists (S k), m', c', pre, img'. split; [exact Hm|]. split; [exact Hc|]. split; [exact Hp|].
        split; [exact Hle'|]. split; [exact Hn'|]. split; [reflexivity|].
        intros [|j] c0 Hj Hc0 Hp0.
        -- cbn in Hc0. injection Hc0 as <-. rewrite Hp0, String.eqb_refl in Hsel. cbn [andb] in Hsel.
           split; [exact (string_leb_trans _ _ _ (string_leb_false _ _ Hsel) Hle')|lia].
        -- cbn in Hj, Hc0. destruct (Hall j c0 ltac:(lia) Hc0 Hp0) as [H1 H2].
           split; [exact H1|]. intros Hk. apply H2. lia.
Qed.

(** When the tag is an index with no entry for the platform, [GetImage]
    fails with [image tag <tag> not found]; the platform is not named. *)
Theorem GetImage_platform_absent_from_index (tag platform : string) (body : Body) (mediaType b : string)
    (refs : list imageManifestReferenceV1) :
  httpGet (manifestURL tag) [acceptImageIndexV1; acceptImageManifestV1] = Ok (body, mediaType) ->
  contains acceptImageIndexV1 mediaType = true ->
  readAll body = Ok b -> unmarshalIndex b = Ok refs ->
  Forall (fun ref => refPlatform ref <> platform) refs ->
  getImage tag platform = Some (Err ("image tag " +:+ tag +:+ " not found")).
Proof.
  intros Hget Hidx Hread Hun Hnone. unfold Registry.GetImage, Registry.getImageManifests.
  fold (manifestURL tag). rewrite Hget, Hread, Hidx, Hun, (getMultiPlatformManifests_none _ _ Hnone).
  reflexivity.
Qed.

(** When the tag yields manifests but none of their configs is of the
    platform, [GetImage] fails with
    [image tag <tag> not found for platform <platform>]. *)
Theorem GetImage_not_found_for_platform (tag platform : string) (images : list imageManifestV1)
    (configs : list imageConfigV1) :
  manifests tag platform = Ok images -> images <> [] ->
  configsOf images = Ok configs ->
  Forall (fun c => pathJoin (OS c) (Architecture c) <> platform) configs ->
  getImage tag platform =
  Some (Err ("image tag " +:+ tag +:+ " not found for platform " +:+ platform)).
Proof.
  intros Hm Hne Hc Hnone. unfold Registry.GetImage. rewrite Hm.
  destruct images as [|im ims]; [contradiction|]. cbn [length Nat.eqb]. rewrite Hc.
  assert (Hlen : length configs = length (im :: ims)).
  { symmetry. apply (Forall2_length _ _ _ (proj1 (getImageConfigs_Forall2 _ _) Hc)). }
  rewrite (selectImages_none platform (im :: ims) configs EmptyString [] Hlen Hnone).
  reflexivity.
Qed.

(** The image [GetImage] returns is built by [newImage] from a manifest
    and its config of the platform, whose OS version is the greatest among
    the configs of the platform (as strings); among configs with that
    version, it is the last. *)
Theorem GetImage_newest_last (tag platform : string) (img : Image) :
  getImage tag platform = Some (Ok img) ->
  exists images configs k m c,
    manifests tag platform = Ok images /\ configsOf images = Ok configs /\
    images !! k = Some m /\ configs !! k = Some c /\
    pathJoin (OS c) (Architecture c) = platform /\
    newImage (Registry.baseURL r) m c = Some img /\
    forall j c', configs !! j = Some c' -> pathJoin (OS c') (Architecture c') = platform ->
      String.leb (OSVersion c') (OSVersion c) = true /\ ((k < j)%nat -> OSVersion c' <> OSVersion c).
Proof.
  intros H. unfold Registry.GetImage in H.
  destruct (manifests tag platform) as [images|e] eqn:Hm; [|discriminate].
  destruct (Nat.eqb (length images) 0); [discriminate|].
  destruct (configsOf images) as [configs|e] eqn:Hc; [|discriminate].
  destruct (select platform images configs EmptyString []) as [res|] eqn:Hs; [|discriminate].
  destruct (rev res) as [|img' rest] eqn:Hr; [discriminate|]. injection H as <-.
  pose proof (Forall2_length _ _ _ (proj1 (getImageConfigs_Forall2 _ _) Hc)) as Hlen.
  destruct (selectImages_trace _ _ _ _ _ _ Hs)
    as [[-> _] | (k & m & c & pre & img'' & Hmk & Hck & Hp & _ & Hn & -> & Hall)];
    [discriminate|].
  rewrite rev_unit in Hr. injection Hr as <- _.
  exists images, configs, k, m, c. split; [first [exact Hm|reflexivity]|]. split; [exact Hc|].
  split; [exact Hmk|]. split; [exact Hck|]. split; [exact Hp|]. split; [exact Hn|].
  intros j c' Hj Hp'. apply (Hall j c'); [|exact Hj|exact Hp'].
  rewrite Hlen. apply lookup_lt_Some in Hj. exact Hj.
Qed.
End RegistryClientProps.

(** A small registry: tag [multi] is an index with two [linux/amd64]
    entries (OS versions 1 and 2) and one [linux/arm64] entry, tag [single]
    a Windows image manifest, tag [empty] an index served with no media type. *)
Definition demoRegistry : Registry.registry := Registry.New EmptyString "envoy".

Definition demoHttpGet (url : string) (_ : list string) : result (string * string) :=
  let base := Registry.baseURL demoRegistry +:+ "/manifests/" in
  if String.eqb url (base +:+ "multi") then Ok ("multi", mediaTypeOCIImageIndex)
  else if String.eqb url (base +:+ "single") then Ok ("single", mediaTypeOCIImageManifest)
  else if String.eqb url (base +:+ "empty") then Ok ("empty", EmptyString)
  else Err "404 Not Found".

Definition demoReadAll (body : string) : result string := Ok body.

Definition demoRef (digest os arch : string) : imageManifestReferenceV1 :=
  mkManifestRef mediaTypeOCIImageManifest digest (mkPlatform arch os EmptyString).

Definition demoUnmarshalIndex (b : string) : result (list imageManifestReferenceV1) :=
  if String.eqb b "multi"
  then Ok [demoRef "sha256:d1" "linux" "amd64"; demoRef "sha256:d2" "linux" "amd64";
           demoRef "sha256:d3" "linux" "arm64"]
  else Ok [].

Definition demoManifest (configDigest : string) : imageManifestV1 :=
  mkManifest EmptyString (mkDescriptor mediaTypeOCIImageConfig configDigest 0 ∅) [].

Definition demoUnmarshalManifest (_ : string) : result imageManifestV1 := Ok (demoManifest "sha256:cw").

Definition demoGetJSONManifest (url _ : string) : result imageManifestV1 :=
  if String.eqb url (Registry.baseURL demoRegistry +:+ "/manifests/sha256:d1")
  then Ok (demoManifest "sha256:c2") else Ok (demoManifest "sha256:c1").

Definition demoGetJSONConfig (url _ : string) : result imageConfigV1 :=
  let base := Registry.baseURL demoRegistry +:+ "/blobs/" in
  if String.eqb url (base +:+ "sha256:c2") then Ok (mkConfig "amd64" "linux" "2" [])
  else if String.eqb url (base +:+ "sha256:cw") then Ok (mkConfig "amd64" "windows" "10.0.17763" [])
  else Ok (mkConfig "amd64" "linux" "1" []).

Definition demoShowImage (m : imageManifestV1) : string := "&{" +:+ m_URL m +:+ "}".

Lemma New_docker_official_witness :
  Registry.New EmptyString "alpine" =
  Registry.mkRegistry ("https://index.docker.io/v2/library/" +:+ "alpine")
    (Registry.DockerRoundTripper ("library/" +:+ "alpine")).
Proof. apply New_docker_official; [left; reflexivity|reflexivity]. Defined.

Lemma getImageManifests_media_types_witness :
  Registry.getImageManifests string demoHttpGet demoReadAll demoUnmarshalIndex demoUnmarshalManifest
    demoGetJSONManifest demoRegistry "empty" "linux/amd64" = Ok [].
Proof.
  rewrite (proj1 (getImageManifests_media_types string demoHttpGet demoReadAll demoUnmarshalIndex
    demoUnmarshalManifest demoGetJSONManifest demoRegistry "empty" "linux/amd64" "empty" EmptyString "empty"
    ltac:(vm_compute; reflexivity) eq_refl) (or_introl eq_refl)).
  vm_compute. reflexivity.
Defined.

Lemma GetImage_platform_absent_from_index_witness :
  Registry.GetImage string demoHttpGet demoReadAll demoUnmarshalIndex demoUnmarshalManifest
    demoGetJSONManifest demoGetJSONConfig demoShowImage demoRegistry "multi" "linux/s390x" =
  Some (Err ("image tag " +:+ "multi" +:+ " not found")).
Proof.
  apply (GetImage_platform_absent_from_index string demoHttpGet demoReadAll demoUnmarshalIndex
    demoUnmarshalManifest demoGetJSONManifest demoGetJSONConfig demoShowImage demoRegistry
    "multi" "linux/s390x" "multi" mediaTypeOCIImageIndex "multi"
    [demoRef "sha256:d1" "linux" "amd64"; demoRef "sha256:d2" "linux" "amd64";
     demoRef "sha256:d3" "linux" "arm64"]);
  [vm_compute; reflexivity|vm_compute; reflexivity|reflexivity|vm_compute; reflexivity|].
  repeat constructor; vm_compute; discriminate.
Defined.

Lemma GetImage_not_found_for_platform_witness :
  Registry.GetImage string demoHttpGet demoReadAll demoUnmarshalIndex demoUnmarshalManifest
    demoGetJSONManifest demoGetJSONConfig demoShowImage demoRegistry "single" "linux/amd64" =
  Some (Err ("image tag " +:+ "single" +:+ " not found for platform " +:+ "linux/amd64")).
Proof.
  apply (GetImage_not_found_for_platform string demoHttpGet demoReadAll demoUnmarshalIndex
    demoUnmarshalManifest demoGetJSONManifest demoGetJSONConfig demoShowImage demoRegistry
    "single" "linux/amd64"
    [Registry.setURL (Registry.baseURL demoRegistry +:+ "/manifests/single") (demoManifest "sha256:cw")]
    [mkConfig "amd64" "windows" "10.0.17763" []]);
  [vm_compute; reflexivity|discriminate|vm_compute; reflexivity|].
  repeat constructor; vm_compute; discriminate.
Defined.

Lemma GetImage_newest_last_witness :
  exists images configs k m c,
    Registry.getImageManifests string demoHttpGet demoReadAll demoUnmarshalIndex demoUnmarshalManifest
      demoGetJSONManifest demoRegistry "multi" "linux/amd64" = Ok images /\
    Registry.getImageConfigs demoGetJSONConfig demoShowImage demoRegistry images = Ok configs /\
    images !! k = Some m /\ configs !! k = Some c /\
    pathJoin (OS c) (Architecture c) = "linux/amd64" /\
    newImage (Registry.baseURL demoRegistry) m c =
      Some (mkImage (Registry.baseURL demoRegistry +:+ "/manifests/sha256:d1") "linux/amd64" []) /\
    forall j c', configs !! j = Some c' -> pathJoin (OS c') (Architecture c') = "linux/amd64" ->
      String.leb (OSVersion c') (OSVersion c) = true /\ ((k < j)%nat -> OSVersion c' <> OSVersion c).
Proof.
  apply (GetImage_newest_last string demoHttpGet demoReadAll demoUnmarshalIndex demoUnmarshalManifest
    demoGetJSONManifest demoGetJSONConfig demoShowImage demoRegistry "multi" "linux/amd64").
  vm_compute. reflexivity.
Defined.

(** ** Layer assembly: when it panics, and an empty history *)

(** [newImage] (through [filterLayers]) runs the history cursor out of
    range, a panic, exactly when the config has a history and it holds
    fewer entries that are not [empty_layer] than the manifest has layers. *)
Theorem newImage_panics_iff (baseURL : string) (manifest : imageManifestV1) (config : imageConfigV1) :
  newImage baseURL manifest config = None <->
  History config <> [] /\ (length (nonEmptyHistory (History config)) < length (m_Layers manifest))%nat.
Proof.
  unfold newImage. split.
  - destruct (filterLayers baseURL manifest config) as [layers|] eqn:Hf; [discriminate|]. intros _.
    unfold filterLayers in Hf.
    destruct (History config) as [|h hs] eqn:Hh.
    + cbn [length Nat.eqb] in Hf.
      rewrite filterLayers_loop_enough in Hf by (rewrite nonEmptyHistory_zero, repeat_length; lia).
      discriminate.
    + split; [discriminate|]. cbn [length Nat.eqb] in Hf.
      destruct (Nat.lt_ge_cases (length (nonEmptyHistory (h :: hs))) (length (m_Layers manifest)))
        as [Hlt|Hge]; [exact Hlt|].
      rewrite filterLayers_loop_enough in Hf by exact Hge. discriminate.
  - intros [Hh Hlen]. rewrite filterLayers_short_history by assumption. reflexivity.
Qed.

(** With an empty history, assembly keeps every layer that is not of the
    foreign type, in order, each with an empty [created_by]. *)
Theorem filterLayers_empty_history (baseURL : string) (manifest : imageManifestV1) (config : imageConfigV1) :
  History config = [] ->
  filterLayers baseURL manifest config =
  Some (map (fun l => newFilesystemLayer l baseURL EmptyString)
          (List.filter (fun l => negb (isForeignLayer l)) (m_Layers manifest))).
Proof. apply filterLayers_empty_history_eq. Qed.

Lemma newImage_panics_iff_witness :
  newImage "https://test/v2/user/repo" (oneLayerManifest mediaTypeDockerImageLayer)
    (mkConfig "amd64" "linux" EmptyString [mkHistory "/bin/sh -c #(nop)  ENV A=1" true; mkHistory "RUN make" true])
  = None.
Proof. apply (proj2 (newImage_panics_iff _ _ _)). split; [discriminate|vm_compute; lia]. Defined.

Lemma filterLayers_empty_history_witness :
  filterLayers "b" (mkManifest EmptyString (mkDescriptor mediaTypeOCIImageConfig "sha256:c" 0 ∅)
                      [mkDescriptor mediaTypeDockerImageForeignLayer "sha256:f" 5 ∅;
                       mkDescriptor mediaTypeDockerImageLayer "sha256:l" 10 ∅])
    (mkConfig "amd64" "windows" EmptyString []) =
  Some [newFilesystemLayer (mkDescriptor mediaTypeDockerImageLayer "sha256:l" 10 ∅) "b" EmptyString].
Proof. rewrite filterLayers_empty_history by reflexivity. vm_compute. reflexivity. Defined.

(** ** [Reference.String] against [Parse] *)

(** [r.String()]: [domain + "/" + path + "/" + tag]. *)
Definition Reference_String (r : Reference) : string :=
  domain r +:+ "/" +:+ path r +:+ "/" +:+ tag r.

Lemma lastIndexByte_from_upper (s : string) (c : ascii) (i : Z) :
  lastIndexByte_from s c i = -1 \/ lastIndexByte_from s c i < i + len s.
Proof.
  revert i. induction s as [|d s IH]; intros i; [left; reflexivity|].
  cbn [lastIndexByte_from]. rewrite len_cons. pose proof (len_nonneg s).
  destruct (Z.eqb_spec (lastIndexByte_from s c (i + 1)) (-1)) as [E|E]; cbv iota.
  - destruct (Ascii.eqb d c); cbv iota; [right; lia|left; reflexivity].
  - destruct (IH (i + 1)) as [E'|E']; [contradiction|]. right. lia.
Qed.

Lemma substring_length (n m : nat) (s : string) :
  String.length (String.substring n m s) = Nat.min m (String.length s - n).
Proof.
  revert n m. induction s as [|c s IH]; intros [|n] [|m]; cbn; try reflexivity.
  - rewrite IH. lia.
  - rewrite IH. reflexivity.
  - rewrite IH. reflexivity.
Qed.

Lemma Parse_tag (ref : string) (r : Reference) :
  Parse ref = Ok r ->
  lastIndexByte ref ":" <> -1 /\ tag r = slice ref (lastIndexByte ref ":" + 1) (len ref).
Proof.
  unfold Parse. destruct (String.eqb ref EmptyString); [discriminate|].
  destruct (Z.eqb_spec (lastIndexByte ref ":") (-1)) as [E|E]; cbn [orb]; [discriminate|].
  destruct (Z.gtb (indexByte ref "/") (lastIndexByte ref ":")); [discriminate|].
  cbv zeta.
  destruct (Z.eqb (indexByte ref "/") (-1)); [intros H; injection H as <-; split; [exact E|reflexivity]|].
  destruct (_ && _); intros H; injection H as <-; split; solve [exact E|reflexivity].
Qed.

(** [Reference.String] puts a slash, not a colon, before the tag, so it is
    not read back by [Parse]: for a tag without a colon, parsing the
    string of a reference never gives that reference. *)
Theorem Parse_String_not_inverse (r : Reference) :
  contains (tag r) ":" = false -> Parse (Reference_String r) <> Ok r.
Proof.
  intros Ht H. destruct (Parse_tag _ _ H) as [Hne Htag].
  set (A := domain r +:+ "/" +:+ path r) in *.
  assert (Hs : Reference_String r = A +:+ String "/" (tag r)).
  { unfold Reference_String, A. rewrite !string_app_assoc. reflexivity. }
  rewrite Hs in Hne, Htag.
  assert (Hic : lastIndexByte (A +:+ String "/" (tag r)) ":" = lastIndexByte_from A ":" 0).
  { unfold lastIndexByte. rewrite lastIndexByte_from_app. cbn zeta.
    rewrite (lastIndexByte_from_none (String "/" (tag r))); [reflexivity|].
    rewrite contains1_cons. exact Ht. }
  rewrite Hic in Hne, Htag.
  destruct (lastIndexByte_from_upper A ":" 0) as [E|Hup]; [contradiction|].
  destruct (lastIndexByte_from_bound A ":" 0 ltac:(lia)) as [E|Hlo]; [contradiction|].
  apply (f_equal String.length) in Htag. unfold slice in Htag. rewrite substring_length in Htag.
  rewrite len_app, len_cons in Htag. rewrite string_length_app in Htag. cbn [String.length] in Htag.
  unfold len in *. lia.
Qed.

Lemma Parse_String_not_inverse_witness :
  Parse (Reference_String (mkReference "docker.io" "library/alpine" "3.14.0"))
    <> Ok (mkReference "docker.io" "library/alpine" "3.14.0").
Proof. apply Parse_String_not_inverse. reflexivity. Defined.
